(** * Quality-and-momentum rebalancer: the selection pipeline and the weights

    A shallow embedding of the two algorithms of the repository,

      - [revenue-roic-fcf-momentum.py]          (module [Trend]),
      - [revenue-roic-fcf-momentum-no-trend.py] (module [NoTrend]),

    and of the pipeline terms they build ([rank], [top], [notnull], [SMA],
    [Returns], [&], [+], [>]).  Definitions come first, their properties
    after them.

    Conventions.
      - A Python [float] is an exact rational ([Q]); a NaN, which is how the
        pipeline engine writes a missing value, is [None].  Rounding is not
        part of this model; module [Binary64] replays the weight arithmetic
        of the trend variant in IEEE binary64 at the constants of
        [initialize].
      - A Python [int] is a [Z].
      - A pipeline term is a column over the assets of the day: a factor is
        a function [Security -> option Q], a filter a function
        [Security -> bool]; [assets] lists the columns in the engine's
        order.
      - A [pd.Series] is the list of its (label, value) rows.
      - A Python exception is the [None] of the [option] a step returns. *)

From Stdlib Require Import String List Bool Arith ZArith QArith Qminmax Lia Lqa.
From Stdlib Require Import SpecFloat Qabs.
Import ListNotations.

(** ** Counting in lists *)

(** The number of members of [l] that satisfy [p]. *)
Definition count {A : Type} (p : A -> bool) (l : list A) : nat :=
  length (filter p l).

(** The number of members of [l] that come before [x], [beats t x] reading
    "[t] comes before [x]". *)
Definition predecessors {A : Type} (l : list A) (beats : A -> A -> bool)
    (x : A) : nat :=
  count (fun t => beats t x) l.

(** ** The pipeline engine

    The terms of [quantopian.pipeline] that the two algorithms build, as the
    engine evaluates them on one day.  The engine's code is not part of the
    repository; the definitions follow its documented behaviour. *)

Definition Security := string.

(** A column of floats, NaN being [None]; a column of booleans. *)
Definition Factor := Security -> option Q.
Definition Filter := Security -> bool.

(** What the data provider knows on the evaluation date. *)
Record Snapshot := {
  (** the assets that exist on the date, in the order of the engine's columns *)
  assets : list Security;
  (** membership of the [Q500US] universe *)
  Q500US : Filter;
  (** [USEquityPricing.close]: the daily closes of an asset, oldest first,
      the last one being the most recent close known on the date *)
  USEquityPricing_close : Security -> list (option Q);
  (** [Fundamentals.<field>.latest] *)
  ms_cash_return : Factor;
  ms_fcf_yield : Factor;
  ms_roic : Factor;
  ms_revenue_growth : Factor
}.

Definition Qltb (a b : Q) : bool := negb (Qle_bool b a).

(** [f + g] on factors: a NaN operand gives NaN. *)
Definition factor_add (f g : Factor) : Factor :=
  fun s => match f s, g s with
           | Some a, Some b => Some (a + b)
           | _, _ => None
           end.

(** [f > g] on factors: a comparison with NaN is false. *)
Definition factor_gt (f g : Factor) : Filter :=
  fun s => match f s, g s with
           | Some a, Some b => Qltb b a
           | _, _ => false
           end.

(** [f.notnull()]. *)
Definition notnull (f : Factor) : Filter :=
  fun s => match f s with Some _ => true | None => false end.

(** [p & q] on filters. *)
Definition filter_and (p q : Filter) : Filter := fun s => p s && q s.

Declare Scope pipeline_scope.
Delimit Scope pipeline_scope with pipe.
Infix "+" := factor_add : pipeline_scope.
Infix ">" := factor_gt : pipeline_scope.
Infix "&" := filter_and (at level 40, left associativity) : pipeline_scope.

(** The position of [s] among the columns [l] (its first occurrence). *)
Fixpoint position (s : Security) (l : list Security) : nat :=
  match l with
  | [] => 0
  | x :: r => if String.eqb x s then 0 else S (position s r)
  end.

Section Engine.
Variable snap : Snapshot.

Definition in_assets (s : Security) : bool :=
  existsb (String.eqb s) (assets snap).

(** The data a ranking sorts: the factor where the mask holds, NaN
    elsewhere (and outside the day's columns). *)
Definition masked (f : Factor) (mask : Filter) : Factor :=
  fun s => if in_assets s && mask s then f s else None.

(** [t] is sorted before [s]: the engine sorts each row with a stable
    sort, so equal values keep the order of the columns, and NaN is
    sorted last and gets no rank. *)
Definition ordinal_before (data : Factor) (t s : Security) : bool :=
  match data t, data s with
  | Some a, Some b =>
      Qltb a b
      || (Qeq_bool a b && (position t (assets snap) <? position s (assets snap))%nat)
  | _, _ => false
  end.

(** [f.rank(ascending=..., mask=...)] with the default [method='ordinal']:
    ranks 1, 2, ... in sorted order; a descending rank sorts the negated
    values; masked-out and NaN entries have rank NaN. *)
Definition rank_by (ascending : bool) (f : Factor) (mask : Filter) : Factor :=
  let data :=
    masked (if ascending then f else fun s => option_map Qopp (f s)) mask in
  fun s =>
    match data s with
    | Some _ =>
        Some (inject_Z (Z.of_nat
                (S (predecessors (assets snap) (ordinal_before data) s))))
    | None => None
    end.

(** [f.rank(mask=mask)]: [ascending] defaults to [True]. *)
Definition rank (f : Factor) (mask : Filter) : Factor := rank_by true f mask.

(** [f.top(N, mask=mask)]: the descending rank is at most [N]. *)
Definition top (N : Z) (f : Factor) (mask : Filter) : Filter :=
  fun s => match rank_by false f mask s with
           | Some r => Qle_bool r (inject_Z N)
           | None => false
           end.

(** The data that [top] sorts: the negated factor under the mask. *)
Definition top_data (f : Factor) (mask : Filter) : Factor :=
  masked (fun s => option_map Qopp (f s)) mask.

(** The last [w] days of a history; a day before its start has no close. *)
Definition window (w : Z) (history : list (option Q)) : list (option Q) :=
  repeat None (Z.to_nat w - length history)
  ++ skipn (length history - Z.to_nat w) history.

(** [numpy.nanmean]: the mean of the values that are not NaN. *)
Definition present (data : list (option Q)) : list Q :=
  flat_map (fun x => match x with Some q => [q] | None => [] end) data.

Definition nanmean (data : list (option Q)) : option Q :=
  match present data with
  | [] => None
  | qs => Some (fold_right Qplus 0 qs / inject_Z (Z.of_nat (length qs)))
  end.

(** [SimpleMovingAverage(inputs=[USEquityPricing.close], window_length=w)]. *)
Definition SMA (w : Z) : Factor :=
  fun s => nanmean (window w (USEquityPricing_close snap s)).

(** [factor[asset]]: the one column of [asset]. *)
Definition slice (f : Factor) (asset : Security) : option Q := f asset.

(** [SimpleMovingAverage(inputs=[a_slice], window_length=1)]: the mean of
    the one-day window of the slice, the same in every column. *)
Definition SMA_slice1 (a_slice : option Q) : Factor :=
  fun _ => nanmean [a_slice].

(** [Returns(window_length=w)]: [(close[-1] - close[0]) / close[0]] over
    the window.  A zero first close, which no traded asset has, is given
    no return here (numpy would give an infinity or NaN). *)
Definition Returns (w : Z) : Factor :=
  fun s =>
    let data := window w (USEquityPricing_close snap s) in
    match hd None data, last data None with
    | Some first, Some latest =>
        if Qeq_bool first 0 then None else Some ((latest - first) / first)
    | _, _ => None
    end.
End Engine.

(** ** The factors and filters of [make_pipeline]

    Lines 62-82 of the no-trend file and lines 75-95 of the trend file are
    the same text; they are embedded once, under the names of the local
    variables, with the constants they read from [context] as arguments. *)

Module Terms.
Section Terms.
Variable snap : Snapshot.
Variables TOP_ROE_QTY TARGET_SECURITIES MOMENTUM_LOOKBACK_DAYS : Z.

Definition universe : Filter := Q500US snap.

Definition cash_return_latest : Factor := ms_cash_return snap.
Definition fcf_yield_latest : Factor := ms_fcf_yield snap.
Definition roic_latest : Factor := ms_roic snap.
Definition rev_growth_latest : Factor := ms_revenue_growth snap.

Definition cash_return : Factor := rank snap cash_return_latest universe.
Definition fcf_yield : Factor := rank snap fcf_yield_latest universe.
Definition roic : Factor := rank snap roic_latest universe.

Definition rev_growth : Factor := rank snap rev_growth_latest universe.
Definition value : Factor := rank snap (cash_return + fcf_yield)%pipe universe.
Definition quality : Factor := (value + roic + rev_growth)%pipe.

Definition momentum : Factor := Returns snap MOMENTUM_LOOKBACK_DAYS.

Definition top_quality : Filter :=
  (top snap TOP_ROE_QTY quality universe
   & notnull cash_return_latest & notnull fcf_yield_latest
   & notnull roic_latest & notnull rev_growth_latest)%pipe.

Definition top_quality_momentum : Filter :=
  top snap TARGET_SECURITIES momentum top_quality.
End Terms.
End Terms.

(** ** Series and Python arithmetic *)

Definition Series := list (Security * Q).

(** [pd.Series(index=labels, data=x)]: the scalar [x] at every label. *)
Definition Series_scalar (labels : list Security) (x : Q) : Series :=
  map (fun s => (s, x)) labels.

(** [series.sum()]. *)
Definition Series_sum (series : Series) : Q :=
  fold_right Qplus 0 (map snd series).

(** [a / n] for a float [a] and an int [n]: [ZeroDivisionError] when [n]
    is zero.  (Where [a] is a numpy scalar, numpy answers a zero divisor
    with an infinity and a warning instead; the two divisors of the
    algorithms, [TARGET_SECURITIES] and [len(BONDS)], are 5 and 2 after
    [initialize].) *)
Definition true_div (a : Q) (n : Z) : option Q :=
  if (n =? 0)%Z then None else Some (a / inject_Z n).

(** [max(a, b)]: Python keeps [a] unless [b] is greater. *)
Definition py_max (a b : Q) : Q := if Qltb a b then b else a.

(** [symbol('...')]: an asset is named by its ticker. *)
Definition symbol (ticker : string) : Security := ticker.

(** [label in @current_holdings]. *)
Definition isin (label : Security) (keys : list Security) : bool :=
  existsb (String.eqb label) keys.

Notation "x <- e ;; k" :=
  (match e with Some x => k | None => None end)
  (at level 61, e at next level, right associativity).

(** What [trade] hands to [order_optimal_portfolio]. *)
Inductive Constraint := MaxGrossExposure (limit : Q).

Record Order := {
  objective : Series;              (* [opt.TargetWeights(...)] *)
  constraints : list Constraint
}.

(** ** [revenue-roic-fcf-momentum.py]: quality, momentum and the trend filter *)

Module Trend.

(** The attributes of [context] the algorithm reads or writes;
    [portfolio_positions] are the keys of [context.portfolio.positions],
    which the broker owns. *)
Record Context := {
  BONDS : list Security;
  TARGET_SECURITIES : Z;
  TOP_ROE_QTY : Z;
  SPY : Security;
  TF_SLOW_LOOKBACK : Z;
  TF_FAST_LOOKBACK : Z;
  MOMENTUM_LOOKBACK_DAYS : Z;
  stock_weights : Series;
  bond_weights : Series;
  portfolio_positions : list Security
}.

Definition initialize (context : Context) : Context :=
  {| BONDS := [symbol "IEF"; symbol "TLT"];
     TARGET_SECURITIES := 5;
     TOP_ROE_QTY := 50;
     SPY := symbol "SPY";
     TF_SLOW_LOOKBACK := 100;
     TF_FAST_LOOKBACK := 10;
     MOMENTUM_LOOKBACK_DAYS := 140;
     stock_weights := [];
     bond_weights := [];
     portfolio_positions := portfolio_positions context |}.

Section MakePipeline.
Variable context : Context.
Variable snap : Snapshot.

Definition spy_ma_fast_slice : option Q :=
  slice (SMA snap (TF_FAST_LOOKBACK context)) (SPY context).
Definition spy_ma_slow_slice : option Q :=
  slice (SMA snap (TF_SLOW_LOOKBACK context)) (SPY context).
Definition spy_ma_fast : Factor := SMA_slice1 spy_ma_fast_slice.
Definition spy_ma_slow : Factor := SMA_slice1 spy_ma_slow_slice.
Definition trend_up : Filter := (spy_ma_fast > spy_ma_slow)%pipe.

(** The signal of the day: [trend_up] holds one value in every column,
    the one read here at the benchmark's. *)
Definition TrendSignal : bool := trend_up (SPY context).

Definition top_quality : Filter :=
  Terms.top_quality snap (TOP_ROE_QTY context).

Definition top_quality_momentum : Filter :=
  Terms.top_quality_momentum snap (TOP_ROE_QTY context)
    (TARGET_SECURITIES context) (MOMENTUM_LOOKBACK_DAYS context).
End MakePipeline.

(** [Pipeline(columns={...}, screen=...)]. *)
Record Pipeline := {
  column_trend_up : Filter;
  column_top_quality_momentum : Filter;
  screen : Filter
}.

Definition make_pipeline (context : Context) (snap : Snapshot) : Pipeline :=
  {| column_trend_up := trend_up context snap;
     column_top_quality_momentum := top_quality_momentum context snap;
     screen := top_quality_momentum context snap |}.

(** A row of the frame that [algo.pipeline_output('pipeline')] returns. *)
Record Row := {
  index : Security;
  row_trend_up : bool;
  row_top_quality_momentum : bool
}.

Definition DataFrame := list Row.

(** The frame of the day: one row for each asset that passes the screen. *)
Definition pipeline_output (context : Context) (snap : Snapshot) : DataFrame :=
  let pipe := make_pipeline context snap in
  map (fun s => {| index := s;
                   row_trend_up := column_trend_up pipe s;
                   row_top_quality_momentum := column_top_quality_momentum pipe s |})
      (filter (screen pipe) (assets snap)).

(** The query string
    ['top_quality_momentum & (trend_up or (not trend_up & index in @current_holdings))'].
    [DataFrame.query] reads [&] and [|] with the precedence of [and] and
    [or], so [not] applies to [trend_up] alone. *)
Definition rule (current_holdings : list Security) (row : Row) : bool :=
  row_top_quality_momentum row
  && (row_trend_up row
      || (negb (row_trend_up row) && isin (index row) current_holdings)).

(** [df.query(rule).index]. *)
Definition stocks_to_hold (context : Context) (df : DataFrame) : list Security :=
  map index (filter (rule (portfolio_positions context)) df).

Definition set_stock_weights (context : Context) (w : Series) : Context :=
  {| BONDS := BONDS context;
     TARGET_SECURITIES := TARGET_SECURITIES context;
     TOP_ROE_QTY := TOP_ROE_QTY context;
     SPY := SPY context;
     TF_SLOW_LOOKBACK := TF_SLOW_LOOKBACK context;
     TF_FAST_LOOKBACK := TF_FAST_LOOKBACK context;
     MOMENTUM_LOOKBACK_DAYS := MOMENTUM_LOOKBACK_DAYS context;
     stock_weights := w;
     bond_weights := bond_weights context;
     portfolio_positions := portfolio_positions context |}.

Definition set_bond_weights (context : Context) (w : Series) : Context :=
  {| BONDS := BONDS context;
     TARGET_SECURITIES := TARGET_SECURITIES context;
     TOP_ROE_QTY := TOP_ROE_QTY context;
     SPY := SPY context;
     TF_SLOW_LOOKBACK := TF_SLOW_LOOKBACK context;
     TF_FAST_LOOKBACK := TF_FAST_LOOKBACK context;
     MOMENTUM_LOOKBACK_DAYS := MOMENTUM_LOOKBACK_DAYS context;
     stock_weights := stock_weights context;
     bond_weights := w;
     portfolio_positions := portfolio_positions context |}.

(** The broker's side: the positions held when a cycle starts. *)
Definition set_portfolio_positions (context : Context)
    (positions : list Security) : Context :=
  {| BONDS := BONDS context;
     TARGET_SECURITIES := TARGET_SECURITIES context;
     TOP_ROE_QTY := TOP_ROE_QTY context;
     SPY := SPY context;
     TF_SLOW_LOOKBACK := TF_SLOW_LOOKBACK context;
     TF_FAST_LOOKBACK := TF_FAST_LOOKBACK context;
     MOMENTUM_LOOKBACK_DAYS := MOMENTUM_LOOKBACK_DAYS context;
     stock_weights := stock_weights context;
     bond_weights := bond_weights context;
     portfolio_positions := positions |}.

(** [df] is what [algo.pipeline_output('pipeline')] returns; the [data]
    argument is not used. *)
Definition select_stocks_and_set_weights (context : Context) (df : DataFrame)
    : option Context :=
  let stocks_to_hold := stocks_to_hold context df in
  stock_weight <- true_div 1 (TARGET_SECURITIES context) ;;
  let context := set_stock_weights context
                   (Series_scalar stocks_to_hold stock_weight) in
  bond_weight <- true_div (py_max (1 - Series_sum (stock_weights context)) 0)
                          (Z.of_nat (length (BONDS context))) ;;
  Some (set_bond_weights context
          (Series_scalar (BONDS context) bond_weight)).

(** The two series that a run of [select_stocks_and_set_weights] stores
    when it raises nothing. *)
Definition selected_stock_weights (context : Context) (df : DataFrame)
    : Series :=
  Series_scalar (stocks_to_hold context df)
                (1 / inject_Z (TARGET_SECURITIES context)).

Definition selected_bond_weights (context : Context) (df : DataFrame)
    : Series :=
  Series_scalar (BONDS context)
    (py_max (1 - Series_sum (selected_stock_weights context df)) 0
     / inject_Z (Z.of_nat (length (BONDS context)))).

(** [pd.concat([context.stock_weights, context.bond_weights])]. *)
Definition total_weights (context : Context) : Series :=
  stock_weights context ++ bond_weights context.

Definition trade (context : Context) : Order :=
  {| objective := total_weights context;
     constraints := [MaxGrossExposure 1] |}.

(** One scheduled rebalance: both functions run at the market open of the
    same day, the selection first. *)
Definition rebalance (context : Context) (snap : Snapshot)
    : option (Context * Order) :=
  context <- select_stocks_and_set_weights context
               (pipeline_output context snap) ;;
  Some (context, trade context).

End Trend.

(** ** [revenue-roic-fcf-momentum-no-trend.py]: quality and momentum only *)

Module NoTrend.

Record Context := {
  TARGET_SECURITIES : Z;
  TOP_ROE_QTY : Z;
  SPY : Security;
  TF_SLOW_LOOKBACK : Z;
  TF_FAST_LOOKBACK : Z;
  MOMENTUM_LOOKBACK_DAYS : Z;
  stock_weights : Series
}.

Definition initialize : Context :=
  {| TARGET_SECURITIES := 5;
     TOP_ROE_QTY := 100;
     SPY := symbol "SPY";
     TF_SLOW_LOOKBACK := 100;
     TF_FAST_LOOKBACK := 10;
     MOMENTUM_LOOKBACK_DAYS := 140;
     stock_weights := [] |}.

Definition top_quality (context : Context) (snap : Snapshot) : Filter :=
  Terms.top_quality snap (TOP_ROE_QTY context).

Definition top_quality_momentum (context : Context) (snap : Snapshot) : Filter :=
  Terms.top_quality_momentum snap (TOP_ROE_QTY context)
    (TARGET_SECURITIES context) (MOMENTUM_LOOKBACK_DAYS context).

Record Pipeline := {
  column_top_quality_momentum : Filter;
  screen : Filter
}.

Definition make_pipeline (context : Context) (snap : Snapshot) : Pipeline :=
  {| column_top_quality_momentum := top_quality_momentum context snap;
     screen := top_quality_momentum context snap |}.

Record Row := {
  index : Security;
  row_top_quality_momentum : bool
}.

Definition DataFrame := list Row.

Definition pipeline_output (context : Context) (snap : Snapshot) : DataFrame :=
  let pipe := make_pipeline context snap in
  map (fun s => {| index := s;
                   row_top_quality_momentum := column_top_quality_momentum pipe s |})
      (filter (screen pipe) (assets snap)).

(** The query string ['top_quality_momentum']. *)
Definition rule (row : Row) : bool := row_top_quality_momentum row.

Definition stocks_to_hold (df : DataFrame) : list Security :=
  map index (filter rule df).

Definition set_stock_weights (context : Context) (w : Series) : Context :=
  {| TARGET_SECURITIES := TARGET_SECURITIES context;
     TOP_ROE_QTY := TOP_ROE_QTY context;
     SPY := SPY context;
     TF_SLOW_LOOKBACK := TF_SLOW_LOOKBACK context;
     TF_FAST_LOOKBACK := TF_FAST_LOOKBACK context;
     MOMENTUM_LOOKBACK_DAYS := MOMENTUM_LOOKBACK_DAYS context;
     stock_weights := w |}.

Definition select_stocks_and_set_weights (context : Context) (df : DataFrame)
    : option Context :=
  let stocks_to_hold := stocks_to_hold df in
  stock_weight <- true_div 1 (TARGET_SECURITIES context) ;;
  Some (set_stock_weights context
          (Series_scalar stocks_to_hold stock_weight)).

Definition trade (context : Context) : Order :=
  {| objective := stock_weights context;
     constraints := [MaxGrossExposure 1] |}.

Definition rebalance (context : Context) (snap : Snapshot)
    : option (Context * Order) :=
  context <- select_stocks_and_set_weights context
               (pipeline_output context snap) ;;
  Some (context, trade context).

End NoTrend.

(** ** The weight arithmetic in IEEE binary64

    The float operations of [select_stocks_and_set_weights] in the trend
    variant (lines 116-120), on binary64 values with rounding to nearest
    even, as functions of the numbers the operations read: the equity
    slots [T], the number of bonds and the number [n] of stocks to hold.
    The sums add from left to right, starting at zero.  The variant without
    the trend filter computes the stock weights in the same way (lines
    102-103). *)

Module Binary64.
Definition prec : Z := 53.
Definition emax : Z := 1024.

Definition float := spec_float.

(** The float of an [int]. *)
Definition of_int (n : Z) : float := binary_normalize prec emax n 0 false.

Definition add : float -> float -> float := SFadd prec emax.
Definition sub : float -> float -> float := SFsub prec emax.
Definition div : float -> float -> float := SFdiv prec emax.

(** [max(a, b)]: [a] unless [b] is greater. *)
Definition py_max (a b : float) : float := if SFltb a b then b else a.

(** [series.sum()]. *)
Definition Series_sum (values : list float) : float :=
  fold_left add values (of_int 0).

(** [stock_weight = 1.0 / context.TARGET_SECURITIES]. *)
Definition stock_weight (T : Z) : float := div (of_int 1) (of_int T).

(** The values of [context.stock_weights] for [n] stocks to hold. *)
Definition stock_weights (T : Z) (n : nat) : list float :=
  repeat (stock_weight T) n.

(** [bond_weight = max(1.0 - context.stock_weights.sum(), 0) / len(context.BONDS)]. *)
Definition bond_weight (T : Z) (bonds n : nat) : float :=
  div (py_max (sub (of_int 1) (Series_sum (stock_weights T n))) (of_int 0))
      (of_int (Z.of_nat bonds)).

(** The values of [pd.concat([context.stock_weights, context.bond_weights])]. *)
Definition total_weights (T : Z) (bonds n : nat) : list float :=
  stock_weights T n ++ repeat (bond_weight T bonds n) bonds.

(** Every weight is at least zero and the weights sum to at most [bound]. *)
Definition within (bound : float) (weights : list float) : bool :=
  forallb (SFleb (of_int 0)) weights && SFleb (Series_sum weights) bound.
End Binary64.

(** ** The specification's words

    The quality score, the completeness filter and the momentum selector as
    the specification describes them, to be compared with the terms of
    [make_pipeline]. *)

Module Spec.
Section Spec.
Variable snap : Snapshot.

(** "all four raw values present" *)
Definition complete : Filter :=
  fun s => notnull (ms_cash_return snap) s && notnull (ms_fcf_yield snap) s
           && notnull (ms_roic snap) s && notnull (ms_revenue_growth snap) s.

(** "rank ... within UniverseSnapshot" *)
Definition universe_rank (f : Factor) : Factor := rank snap f (Q500US snap).

(** "rank cash-return and fcf-yield independently [...], sum them into a
    value sub-score, re-rank the sum [...], then sum that re-ranked value
    with the independently-ranked roic and revenue-growth scores" *)
Definition value_subscore : Factor :=
  fun s => match universe_rank (ms_cash_return snap) s,
                 universe_rank (ms_fcf_yield snap) s with
           | Some c, Some y => Some (c + y)
           | _, _ => None
           end.

Definition QualityScore : Factor :=
  fun s => match universe_rank value_subscore s,
                 universe_rank (ms_roic snap) s,
                 universe_rank (ms_revenue_growth snap) s with
           | Some v, Some r, Some g => Some (v + r + g)
           | _, _, _ => None
           end.

(** "Ranks those securities by MomentumScore descending": [t] comes ahead
    of [s] when its return over the lookback is higher, or the same with
    an earlier column. *)
Definition momentum_ahead (lookback : Z) (t s : Security) : bool :=
  match Returns snap lookback t, Returns snap lookback s with
  | Some a, Some b =>
      Qltb b a
      || (Qeq_bool a b
          && (position t (assets snap) <? position s (assets snap))%nat)
  | _, _ => false
  end.

(** "selects the top TARGET_SECURITIES" of the quality set: a member of
    the set that has a return and fewer than [target] members ahead. *)
Definition MomentumSelector (quality_set : Filter) (target lookback : Z)
    : Filter :=
  fun s =>
    in_assets snap s && quality_set s && notnull (Returns snap lookback) s
    && (Z.of_nat (count (fun t => quality_set t && momentum_ahead lookback t s)
                        (assets snap)) <? target)%Z.
End Spec.

(** "Each included equity gets weight 1/TARGET_SECURITIES." *)
Definition equity_weight (target : Z) : Q := 1 / inject_Z target.

(** "Remaining weight budget = max(1 - sum(equity weights), 0), split
    evenly across all defensive-basket members". *)
Definition defensive_weight (equities : Series) (basket : list Security) : Q :=
  Qmax (1 - Series_sum equities) 0 / inject_Z (Z.of_nat (length basket)).

(** "every weight >= 0; sum <= 1" *)
Definition within_budget (weights : Series) : Prop :=
  (forall s w, In (s, w) weights -> 0 <= w) /\ Series_sum weights <= 1.
End Spec.


(** ** Sample data

    Snapshots and contexts on which the definitions are run. *)

Module Sample.
Open Scope string_scope.

Definition lookup {X : Type} (table : list (Security * X)) (s : Security)
    : option X :=
  option_map snd (find (fun row => String.eqb (fst row) s) table).

(** A history of 140 closes: 139 days at [a], then a close at [b]. *)
Definition history (a b : Q) : list (option Q) :=
  repeat (Some a) 139 ++ [Some b].

Definition snapshot_of (columns members : list Security)
    (closes : list (Security * list (option Q)))
    (cash_return fcf_yield roic revenue_growth : list (Security * Q))
    : Snapshot :=
  {| assets := columns;
     Q500US := fun s => isin s members;
     USEquityPricing_close :=
       fun s => match lookup closes s with Some h => h | None => [] end;
     ms_cash_return := lookup cash_return;
     ms_fcf_yield := lookup fcf_yield;
     ms_roic := lookup roic;
     ms_revenue_growth := lookup revenue_growth |}.

Definition fundamentals : list (Security * Q) :=
  [("A", 7); ("B", 6); ("C", 5); ("D", 4); ("E", 3); ("F", 2); ("G", 1)].

Definition closes (benchmark : list (option Q))
    : list (Security * list (option Q)) :=
  [("A", history 10 11); ("B", history 10 13); ("C", history 10 12);
   ("D", history 10 20); ("E", history 10 9); ("F", history 10 30);
   ("G", history 10 15); ("SPY", benchmark)].

(** Seven stocks, [F] without a return on invested capital; the benchmark
    has fallen on the last day: fast average 99, slow average 99.9. *)
Definition falling_market : Snapshot :=
  snapshot_of ["A"; "B"; "C"; "D"; "E"; "F"; "G"; "IEF"; "SPY"; "TLT"]
              ["A"; "B"; "C"; "D"; "E"; "F"; "G"]
              (closes (history 100 90))
              fundamentals fundamentals
              [("A", 7); ("B", 6); ("C", 5); ("D", 4); ("E", 3); ("G", 1)]
              fundamentals.

(** The same stocks, the benchmark having risen on the last day. *)
Definition rising_market : Snapshot :=
  snapshot_of ["A"; "B"; "C"; "D"; "E"; "F"; "G"; "IEF"; "SPY"; "TLT"]
              ["A"; "B"; "C"; "D"; "E"; "F"; "G"]
              (closes (history 100 110))
              fundamentals fundamentals
              [("A", 7); ("B", 6); ("C", 5); ("D", 4); ("E", 3); ("G", 1)]
              fundamentals.

(** A universe of three stocks, all with complete fundamentals. *)
Definition thin_market : Snapshot :=
  snapshot_of ["A"; "B"; "C"; "SPY"] ["A"; "B"; "C"]
              (closes (history 100 110))
              fundamentals fundamentals fundamentals fundamentals.

(** The scenario of the specification: five stocks with complete
    fundamentals, of which [A], [B], [C] have the best quality and [B],
    [C] the best momentum among these three. *)
Definition five_stocks : Snapshot :=
  snapshot_of ["A"; "B"; "C"; "D"; "E"; "SPY"] ["A"; "B"; "C"; "D"; "E"]
              (closes (history 100 90))
              fundamentals fundamentals fundamentals fundamentals.

(** The trend variant after [initialize], holding [C] and [G]. *)
Definition trend_context : Trend.Context :=
  Trend.initialize
    {| Trend.BONDS := []; Trend.TARGET_SECURITIES := 0;
       Trend.TOP_ROE_QTY := 0; Trend.SPY := "";
       Trend.TF_SLOW_LOOKBACK := 0; Trend.TF_FAST_LOOKBACK := 0;
       Trend.MOMENTUM_LOOKBACK_DAYS := 0;
       Trend.stock_weights := []; Trend.bond_weights := [];
       Trend.portfolio_positions := ["C"; "G"] |}.

(** The same, holding only [E], which the momentum selector leaves out. *)
Definition sidelined_context : Trend.Context :=
  Trend.set_portfolio_positions trend_context ["E"].

(** The configuration of the specification's scenario: two equity slots
    out of a quality shortlist of three, two bond proxies, [C] held. *)
Definition scenario_context : Trend.Context :=
  {| Trend.BONDS := ["bond1"; "bond2"]; Trend.TARGET_SECURITIES := 2;
     Trend.TOP_ROE_QTY := 3; Trend.SPY := "SPY";
     Trend.TF_SLOW_LOOKBACK := 100; Trend.TF_FAST_LOOKBACK := 10;
     Trend.MOMENTUM_LOOKBACK_DAYS := 140;
     Trend.stock_weights := []; Trend.bond_weights := [];
     Trend.portfolio_positions := ["C"] |}.

Definition no_trend_scenario_context : NoTrend.Context :=
  {| NoTrend.TARGET_SECURITIES := 2; NoTrend.TOP_ROE_QTY := 3;
     NoTrend.SPY := "SPY";
     NoTrend.TF_SLOW_LOOKBACK := 100; NoTrend.TF_FAST_LOOKBACK := 10;
     NoTrend.MOMENTUM_LOOKBACK_DAYS := 140;
     NoTrend.stock_weights := [] |}.
End Sample.

(** ** The rest of [trade], and the schedule

    What [trade] does besides building its order, the constraint it passes,
    and the cycles that [schedule_function] sets up in [initialize]. *)



(** [record(stocks=context.stock_weights.sum(), bonds=context.bond_weights.sum())],
    the last line of [trade] in the trend variant. *)
Definition Trend_record (context : Trend.Context) : Q * Q :=
  (Series_sum (Trend.stock_weights context),
   Series_sum (Trend.bond_weights context)).

(** A scheduled day: the positions the broker reports at the open and the
    data of the day. *)
Record Day := {
  positions_at_open : list Security;
  snapshot : Snapshot
}.

(** The scheduled cycles of the trend variant over a run of days, from the
    context that the previous day left; the orders are those of [trade],
    first day first. *)
Fixpoint Trend_run (context : Trend.Context) (days : list Day)
    : option (Trend.Context * list Order) :=
  match days with
  | [] => Some (context, [])
  | day :: rest =>
      cycle <- Trend.rebalance
                 (Trend.set_portfolio_positions context (positions_at_open day))
                 (snapshot day) ;;
      later <- Trend_run (fst cycle) rest ;;
      Some (fst later, snd cycle :: snd later)
  end.

(** The same for the variant without the trend filter, which reads no
    positions. *)
Fixpoint NoTrend_run (context : NoTrend.Context) (days : list Snapshot)
    : option (NoTrend.Context * list Order) :=
  match days with
  | [] => Some (context, [])
  | day :: rest =>
      cycle <- NoTrend.rebalance context day ;;
      later <- NoTrend_run (fst cycle) rest ;;
      Some (fst later, snd cycle :: snd later)
  end.

(** The constants of a context, which no cycle writes. *)
Definition Trend_constants (context : Trend.Context)
    : list Security * Z * Z * Security * Z * Z * Z :=
  (Trend.BONDS context, Trend.TARGET_SECURITIES context,
   Trend.TOP_ROE_QTY context, Trend.SPY context,
   Trend.TF_SLOW_LOOKBACK context, Trend.TF_FAST_LOOKBACK context,
   Trend.MOMENTUM_LOOKBACK_DAYS context).

Definition NoTrend_constants (context : NoTrend.Context)
    : Z * Z * Security * Z * Z * Z :=
  (NoTrend.TARGET_SECURITIES context, NoTrend.TOP_ROE_QTY context,
   NoTrend.SPY context, NoTrend.TF_SLOW_LOOKBACK context,
   NoTrend.TF_FAST_LOOKBACK context, NoTrend.MOMENTUM_LOOKBACK_DAYS context).

(** More sample data. *)
Module Sample2.
Open Scope string_scope.


(** The variant without the trend filter with the shortlist of the trend
    variant. *)
Definition no_trend_shortlist_50 : NoTrend.Context :=
  NoTrend.set_stock_weights
    {| NoTrend.TARGET_SECURITIES := 5; NoTrend.TOP_ROE_QTY := 50;
       NoTrend.SPY := "SPY";
       NoTrend.TF_SLOW_LOOKBACK := 100; NoTrend.TF_FAST_LOOKBACK := 10;
       NoTrend.MOMENTUM_LOOKBACK_DAYS := 140;
       NoTrend.stock_weights := [] |} [].

(** Three scheduled days. *)
Definition three_days : list Day :=
  [ {| positions_at_open := []; snapshot := Sample.rising_market |};
    {| positions_at_open := ["A"; "B"; "C"; "D"; "G"];
       snapshot := Sample.falling_market |};
    {| positions_at_open := ["C"; "G"]; snapshot := Sample.thin_market |} ].
End Sample2.

(** Two snapshots with the same columns and the same universe that agree,
    on every member of the universe, on the closes and on the four
    fundamentals. *)
Definition same_universe_data (snap1 snap2 : Snapshot) : Prop :=
  assets snap1 = assets snap2
  /\ (forall s, In s (assets snap1) -> Q500US snap1 s = Q500US snap2 s)
  /\ (forall s, In s (assets snap1) -> Q500US snap1 s = true ->
                USEquityPricing_close snap1 s = USEquityPricing_close snap2 s
                /\ ms_cash_return snap1 s = ms_cash_return snap2 s
                /\ ms_fcf_yield snap1 s = ms_fcf_yield snap2 s
                /\ ms_roic snap1 s = ms_roic snap2 s
                /\ ms_revenue_growth snap1 s = ms_revenue_growth snap2 s).

(** [Sample.falling_market] with fundamentals for the bond [IEF] and closes
    for the bond [TLT], neither of which is in the universe. *)
Definition falling_market_with_bond_data : Snapshot :=
  Sample.snapshot_of
    ["A"; "B"; "C"; "D"; "E"; "F"; "G"; "IEF"; "SPY"; "TLT"]%string
    ["A"; "B"; "C"; "D"; "E"; "F"; "G"]%string
    (("TLT"%string, Sample.history 100 200)
     :: Sample.closes (Sample.history 100 90))
    (("IEF"%string, 99) :: Sample.fundamentals)
    (("IEF"%string, 99) :: Sample.fundamentals)
    [("IEF", 99); ("A", 7); ("B", 6); ("C", 5); ("D", 4); ("E", 3);
     ("G", 1)]%string
    (("IEF"%string, 99) :: Sample.fundamentals).

(** * Properties

    ** Counting in lists *)

Section Counting.
Context {A : Type}.
Implicit Types (p q r : A -> bool) (l : list A) (x y m : A).

Lemma count_cons p x l :
  count p (x :: l) = ((if p x then 1 else 0) + count p l)%nat.
Proof. unfold count; simpl; destruct (p x); reflexivity. Qed.

Lemma count_le_length p l : (count p l <= length l)%nat.
Proof. apply filter_length_le. Qed.

Lemma count_none p l : (forall x, p x = false) -> count p l = 0%nat.
Proof.
  intros H. induction l as [|x l IH]; [reflexivity|].
  rewrite count_cons, H, IH. reflexivity.
Qed.

Lemma count_ext_in p q l :
  (forall x, In x l -> p x = q x) -> count p l = count q l.
Proof.
  induction l as [|x l IH]; intros H; [reflexivity|].
  rewrite !count_cons, (H x (or_introl eq_refl)), IH; [reflexivity|].
  intros y Hy. apply H. right. exact Hy.
Qed.

Lemma count_mono p q l :
  (forall x, In x l -> p x = true -> q x = true) ->
  (count p l <= count q l)%nat.
Proof.
  induction l as [|x l IH]; intros H; [reflexivity|].
  rewrite !count_cons.
  assert (Hl : (count p l <= count q l)%nat)
    by (apply IH; intros y Hy; apply H; right; exact Hy).
  destruct (p x) eqn:Hp.
  - rewrite (H x (or_introl eq_refl) Hp). lia.
  - destruct (q x); lia.
Qed.

Lemma count_mono_strict p q l m :
  (forall x, In x l -> p x = true -> q x = true) ->
  In m l -> p m = false -> q m = true ->
  (count p l < count q l)%nat.
Proof.
  induction l as [|x l IH]; intros H Hin Hp Hq; [destruct Hin|].
  rewrite !count_cons.
  assert (Hl : (count p l <= count q l)%nat)
    by (apply count_mono; intros y Hy; apply H; right; exact Hy).
  destruct Hin as [-> | Hin].
  - rewrite Hp, Hq. lia.
  - assert (count p l < count q l)%nat
      by (apply IH; auto; intros y Hy; apply H; right; exact Hy).
    destruct (p x) eqn:Hpx.
    + rewrite (H x (or_introl eq_refl) Hpx). lia.
    + destruct (q x); lia.
Qed.

Lemma count_or p q r l :
  (forall x, In x l -> r x = true -> p x = true \/ q x = true) ->
  (count r l <= count p l + count q l)%nat.
Proof.
  induction l as [|x l IH]; intros H; [reflexivity|].
  rewrite !count_cons.
  assert (Hl : (count r l <= count p l + count q l)%nat)
    by (apply IH; intros y Hy; apply H; right; exact Hy).
  destruct (r x) eqn:Hr.
  - destruct (H x (or_introl eq_refl) Hr) as [-> | ->]; destruct (p x), (q x); lia.
  - destruct (p x), (q x); lia.
Qed.

(** A property that holds of at most one member of a duplicate-free list
    is counted at most once. *)
Lemma count_unique p l :
  NoDup l ->
  (forall x y, In x l -> In y l -> p x = true -> p y = true -> x = y) ->
  (count p l <= 1)%nat.
Proof.
  induction 1 as [|x l Hx Hnd IH]; intros Huniq; [unfold count; simpl; lia|].
  rewrite count_cons.
  assert (Hl : (count p l <= 1)%nat)
    by (apply IH; intros a b Ha Hb; apply Huniq; right; assumption).
  destruct (p x) eqn:Hp; [|lia].
  assert (Hz : count p l = 0%nat).
  { unfold count. destruct (filter p l) as [|y t] eqn:Hf; [reflexivity|].
    assert (Hy : In y (filter p l)) by (rewrite Hf; left; reflexivity).
    apply filter_In in Hy. destruct Hy as [Hy Hpy].
    assert (x = y) by (apply Huniq; simpl; auto).
    subst y. contradiction. }
  lia.
Qed.

(** *** Ranks that count the predecessors of a strict order

    [beats t x] reads: [t] comes before [x].  When [beats] is a strict
    total order on the valid members of a duplicate-free list, at most
    [n] valid members have fewer than [n] predecessors. *)
Section Predecessors.
Variable l : list A.
Variable beats : A -> A -> bool.
Let predecessors := predecessors l beats.
Variable valid : A -> bool.
Variable eq_dec : forall x y : A, {x = y} + {x <> y}.

Hypothesis beats_irrefl : forall x, beats x x = false.
Hypothesis beats_trans :
  forall x y z, beats x y = true -> beats y z = true -> beats x z = true.
Hypothesis beats_total :
  forall x y, In x l -> In y l -> valid x = true -> valid y = true ->
              x <> y -> beats x y = true \/ beats y x = true.

Lemma predecessors_lt x y :
  In x l -> beats x y = true -> (predecessors x < predecessors y)%nat.
Proof.
  intros Hx Hxy. unfold predecessors.
  apply count_mono_strict with (m := x); auto.
  intros t _ Ht. apply beats_trans with x; assumption.
Qed.

Lemma predecessors_inj x y :
  In x l -> In y l -> valid x = true -> valid y = true ->
  predecessors x = predecessors y -> x = y.
Proof.
  intros Hx Hy Vx Vy Heq.
  destruct (eq_dec x y) as [H | H]; [exact H|].
  destruct (beats_total x y Hx Hy Vx Vy H) as [Hb | Hb];
    apply predecessors_lt in Hb; auto; lia.
Qed.

Lemma count_predecessors_below (n : nat) :
  NoDup l ->
  (count (fun x => valid x && (predecessors x <? n)%nat) l <= n)%nat.
Proof.
  intros Hnd. induction n as [|n IH].
  - rewrite count_none; [lia|].
    intros x. apply andb_false_r.
  - assert (H1 : (count (fun x => valid x && (predecessors x =? n)%nat) l <= 1)%nat).
    { apply count_unique; [exact Hnd|].
      intros x y Hx Hy Px Py.
      apply andb_true_iff in Px. destruct Px as [Vx Ex].
      apply andb_true_iff in Py. destruct Py as [Vy Ey].
      apply Nat.eqb_eq in Ex. apply Nat.eqb_eq in Ey.
      apply predecessors_inj; auto; congruence. }
    assert (H2 : (count (fun x => valid x && (predecessors x <? S n)%nat) l
                  <= count (fun x => valid x && (predecessors x <? n)%nat) l
                     + count (fun x => valid x && (predecessors x =? n)%nat) l)%nat).
    { apply count_or. intros x _ Hx.
      apply andb_true_iff in Hx. destruct Hx as [Vx Lx].
      apply Nat.ltb_lt in Lx. rewrite Vx. simpl.
      destruct (Nat.eq_dec (predecessors x) n) as [E | E].
      - right. apply Nat.eqb_eq. exact E.
      - left. apply Nat.ltb_lt. lia. }
    lia.
Qed.
End Predecessors.
End Counting.


(** ** Comparisons of rationals as booleans *)

Lemma Qltb_lt (a b : Q) : Qltb a b = true <-> a < b.
Proof.
  unfold Qltb. rewrite negb_true_iff. split.
  - intros H. apply Qnot_le_lt. intros Hle.
    apply Qle_bool_iff in Hle. congruence.
  - intros H. destruct (Qle_bool b a) eqn:E; [|reflexivity].
    apply Qle_bool_iff in E. apply Qlt_not_le in H. contradiction.
Qed.

Lemma Qltb_ge (a b : Q) : Qltb a b = false <-> b <= a.
Proof.
  unfold Qltb. rewrite negb_false_iff. apply Qle_bool_iff.
Qed.

Lemma Qltb_irrefl (a : Q) : Qltb a a = false.
Proof. apply Qltb_ge. apply Qle_refl. Qed.

Lemma Qltb_opp (a b : Q) : Qltb (- a) (- b) = Qltb b a.
Proof.
  destruct (Qltb b a) eqn:E.
  - apply Qltb_lt in E. apply Qltb_lt. lra.
  - apply Qltb_ge in E. apply Qltb_ge. lra.
Qed.

Lemma Qeq_bool_opp (a b : Q) : Qeq_bool (- a) (- b) = Qeq_bool a b.
Proof.
  destruct (Qeq_bool a b) eqn:E.
  - apply Qeq_bool_iff in E. apply Qeq_bool_iff. lra.
  - destruct (Qeq_bool (- a) (- b)) eqn:E'; [|reflexivity].
    apply Qeq_bool_iff in E'.
    assert (H : a == b) by lra.
    apply Qeq_bool_iff in H. congruence.
Qed.

Lemma py_max_Qmax (a b : Q) : py_max a b == Qmax a b.
Proof.
  unfold py_max. destruct (Qltb a b) eqn:E.
  - apply Qltb_lt in E. symmetry. apply Q.max_r. lra.
  - apply Qltb_ge in E. symmetry. apply Q.max_l. exact E.
Qed.

(** ** Columns and their positions *)

Lemma position_inj (l : list Security) (x y : Security) :
  In x l -> In y l -> position x l = position y l -> x = y.
Proof.
  induction l as [|a l IH]; intros Hx Hy Heq; [destruct Hx|].
  simpl in Heq.
  destruct (String.eqb_spec a x) as [Eax | Nax];
    destruct (String.eqb_spec a y) as [Eay | Nay]; try congruence; try discriminate.
  destruct Hx as [Hx | Hx]; [congruence|].
  destruct Hy as [Hy | Hy]; [congruence|].
  apply IH; auto.
Qed.

Lemma in_assets_In (snap : Snapshot) (s : Security) :
  in_assets snap s = true <-> In s (assets snap).
Proof.
  unfold in_assets. rewrite existsb_exists. split.
  - intros [x [Hx E]]. apply String.eqb_eq in E. subst. exact Hx.
  - intros H. exists s. split; [exact H | apply String.eqb_refl].
Qed.

Lemma isin_In (label : Security) (keys : list Security) :
  isin label keys = true <-> In label keys.
Proof.
  unfold isin. rewrite existsb_exists. split.
  - intros [x [Hx E]]. apply String.eqb_eq in E. subst. exact Hx.
  - intros H. exists label. split; [exact H | apply String.eqb_refl].
Qed.

(** ** The sort order of a ranking is a strict total order *)

Section OrdinalOrder.
Variable snap : Snapshot.
Variable data : Factor.

Lemma ordinal_before_irrefl x : ordinal_before snap data x x = false.
Proof.
  unfold ordinal_before. destruct (data x) as [a|]; [|reflexivity].
  rewrite Qltb_irrefl, Nat.ltb_irrefl, andb_false_r. reflexivity.
Qed.

Lemma ordinal_before_spec t s :
  ordinal_before snap data t s = true <->
  exists a b, data t = Some a /\ data s = Some b /\
              (a < b \/ (a == b /\
                         (position t (assets snap) < position s (assets snap))%nat)).
Proof.
  unfold ordinal_before.
  destruct (data t) as [a|], (data s) as [b|];
    try (split; [discriminate | intros (a' & b' & H1 & H2 & _); discriminate]).
  rewrite orb_true_iff, andb_true_iff, Qltb_lt, Qeq_bool_iff, Nat.ltb_lt.
  split.
  - intros H. exists a, b. auto.
  - intros (a' & b' & H1 & H2 & H). inversion H1; inversion H2; subst. exact H.
Qed.

Lemma ordinal_before_trans x y z :
  ordinal_before snap data x y = true ->
  ordinal_before snap data y z = true ->
  ordinal_before snap data x z = true.
Proof.
  rewrite !ordinal_before_spec.
  intros (a & b & Ha & Hb & H1) (b' & c & Hb' & Hc & H2).
  rewrite Hb in Hb'. inversion Hb'; subst b'.
  exists a, c. repeat split; auto.
  destruct H1 as [H1 | [H1 P1]], H2 as [H2 | [H2 P2]].
  - left. lra.
  - left. lra.
  - left. lra.
  - right. split; [lra | lia].
Qed.

Lemma ordinal_before_total x y :
  In x (assets snap) -> In y (assets snap) ->
  notnull data x = true -> notnull data y = true -> x <> y ->
  ordinal_before snap data x y = true \/ ordinal_before snap data y x = true.
Proof.
  intros Hx Hy Vx Vy Hne. rewrite !ordinal_before_spec.
  unfold notnull in Vx, Vy.
  destruct (data x) as [a|]; [|discriminate].
  destruct (data y) as [b|]; [|discriminate].
  destruct (Q_dec a b) as [[Hlt | Hgt] | Heq].
  - left. exists a, b. auto.
  - right. exists b, a. auto.
  - destruct (Nat.lt_trichotomy (position x (assets snap))
                                (position y (assets snap))) as [H | [H | H]].
    + left. exists a, b. auto.
    + exfalso. apply Hne. apply position_inj with (assets snap); assumption.
    + right. exists b, a. repeat split; auto. right. split; [lra | exact H].
Qed.
End OrdinalOrder.

(** ** Ranks and the [top] filter *)

Section RankFacts.
Variable snap : Snapshot.

Lemma masked_some f mask s v :
  masked snap f mask s = Some v ->
  In s (assets snap) /\ mask s = true /\ f s = Some v.
Proof.
  unfold masked. destruct (in_assets snap s) eqn:Ha; simpl; [|discriminate].
  destruct (mask s); [|discriminate].
  intros H. apply in_assets_In in Ha. auto.
Qed.

Lemma rank_by_none ascending f mask s :
  f s = None -> rank_by snap ascending f mask s = None.
Proof.
  intros H. unfold rank_by, masked.
  destruct (in_assets snap s && mask s); [|reflexivity].
  destruct ascending; rewrite H; reflexivity.
Qed.

Lemma rank_by_some ascending f mask s r :
  rank_by snap ascending f mask s = Some r ->
  In s (assets snap) /\ mask s = true /\ exists v, f s = Some v.
Proof.
  unfold rank_by.
  destruct (masked snap _ mask s) as [v|] eqn:Hd; [|discriminate].
  intros _. apply masked_some in Hd. destruct Hd as (Ha & Hm & Hf).
  repeat split; auto.
  destruct ascending; [eauto|].
  destruct (f s) as [w|]; [eauto | discriminate].
Qed.

Lemma top_unfold N f mask s :
  top snap N f mask s =
  notnull (top_data snap f mask) s
  && (predecessors (assets snap) (ordinal_before snap (top_data snap f mask)) s
      <? Z.to_nat N)%nat.
Proof.
  unfold top, rank_by, notnull. fold (top_data snap f mask).
  destruct (top_data snap f mask s) as [v|]; [|reflexivity].
  simpl andb.
  set (p := predecessors _ _ _).
  destruct (p <? Z.to_nat N)%nat eqn:E.
  - apply Nat.ltb_lt in E. apply Qle_bool_iff.
    rewrite <- Zle_Qle. lia.
  - apply Nat.ltb_ge in E.
    destruct (Qle_bool _ _) eqn:E'; [|reflexivity].
    apply Qle_bool_iff in E'. rewrite <- Zle_Qle in E'. lia.
Qed.

Lemma top_true N f mask s :
  top snap N f mask s = true ->
  In s (assets snap) /\ mask s = true /\ exists v, f s = Some v.
Proof.
  unfold top. destruct (rank_by snap false f mask s) as [r|] eqn:E; [|discriminate].
  intros _. exact (rank_by_some _ _ _ _ _ E).
Qed.

(** At most [N] columns pass [top N]. *)
Lemma count_top N f mask :
  NoDup (assets snap) ->
  (count (top snap N f mask) (assets snap) <= Z.to_nat N)%nat.
Proof.
  intros Hnd.
  pose proof (count_predecessors_below (assets snap)
                (ordinal_before snap (top_data snap f mask))
                (notnull (top_data snap f mask)) string_dec
                (ordinal_before_irrefl snap (top_data snap f mask))
                (ordinal_before_trans snap (top_data snap f mask))
                (ordinal_before_total snap (top_data snap f mask))
                (Z.to_nat N) Hnd) as H.
  eapply Nat.le_trans; [|exact H].
  apply count_mono. intros x _ Hx. rewrite top_unfold in Hx. exact Hx.
Qed.
End RankFacts.

Section RankExt.
Variable snap : Snapshot.

Lemma masked_ext f g m m' :
  (forall s, In s (assets snap) -> f s = g s) ->
  (forall s, In s (assets snap) -> m s = m' s) ->
  forall s, masked snap f m s = masked snap g m' s.
Proof.
  intros Hf Hm s. unfold masked.
  destruct (in_assets snap s) eqn:Ha; [|reflexivity].
  apply in_assets_In in Ha. simpl. rewrite (Hm s Ha), (Hf s Ha). reflexivity.
Qed.

Lemma ordinal_before_ext d d' :
  (forall s, d s = d' s) ->
  forall t s, ordinal_before snap d t s = ordinal_before snap d' t s.
Proof. intros H t s. unfold ordinal_before. rewrite !H. reflexivity. Qed.

(** A rank reads its factor and its mask on the day's columns only. *)
Lemma rank_by_ext ascending f g m m' :
  (forall s, In s (assets snap) -> f s = g s) ->
  (forall s, In s (assets snap) -> m s = m' s) ->
  forall s, rank_by snap ascending f m s = rank_by snap ascending g m' s.
Proof.
  intros Hf Hm s. unfold rank_by.
  set (d := masked snap _ m). set (d' := masked snap _ m').
  assert (Hd : forall x, d x = d' x).
  { intros x. apply masked_ext; [|exact Hm].
    intros y Hy. destruct ascending; [apply Hf; exact Hy|].
    rewrite (Hf y Hy). reflexivity. }
  rewrite Hd. destruct (d' s); [|reflexivity].
  unfold predecessors.
  rewrite (count_ext_in _ (fun t => ordinal_before snap d' t s)); [reflexivity|].
  intros t _. apply ordinal_before_ext. exact Hd.
Qed.

Lemma top_ext N f g m m' :
  (forall s, In s (assets snap) -> f s = g s) ->
  (forall s, In s (assets snap) -> m s = m' s) ->
  forall s, top snap N f m s = top snap N g m' s.
Proof.
  intros Hf Hm s. unfold top.
  rewrite (rank_by_ext false f g m m' Hf Hm). reflexivity.
Qed.
End RankExt.

(** ** The quality score *)

Lemma quality_unfold (snap : Snapshot) (s : Security) :
  Terms.quality snap s = Spec.QualityScore snap s.
Proof.
  unfold Terms.quality, Spec.QualityScore, factor_add.
  change (Spec.universe_rank snap (Spec.value_subscore snap) s)
    with (Terms.value snap s).
  change (Spec.universe_rank snap (ms_roic snap) s) with (Terms.roic snap s).
  change (Spec.universe_rank snap (ms_revenue_growth snap) s)
    with (Terms.rev_growth snap s).
  destruct (Terms.value snap s), (Terms.roic snap s), (Terms.rev_growth snap s);
    reflexivity.
Qed.

(** C3. On every snapshot the [quality] factor of [make_pipeline] is, for
    every security, the score of the specification: the universe rank of
    (universe rank of cash return + universe rank of free-cash-flow yield),
    plus the universe rank of the return on invested capital, plus the
    universe rank of the revenue growth; it is missing exactly when the
    specification's score is. *)
Theorem quality_is_QualityScore (snap : Snapshot) (s : Security) :
  Terms.quality snap s = Spec.QualityScore snap s.
Proof. exact (quality_unfold snap s). Qed.

Lemma quality_none_of_incomplete (snap : Snapshot) (s : Security) :
  Spec.complete snap s = false -> Terms.quality snap s = None.
Proof.
  intros H. unfold Spec.complete, notnull in H.
  unfold Terms.quality, factor_add.
  destruct (ms_cash_return snap s) eqn:E1.
  2:{ assert (Hv : Terms.value snap s = None).
      { apply rank_by_none. unfold factor_add.
        unfold Terms.cash_return, rank.
        rewrite (rank_by_none snap true _ _ s E1). reflexivity. }
      rewrite Hv. reflexivity. }
  destruct (ms_fcf_yield snap s) eqn:E2.
  2:{ assert (Hv : Terms.value snap s = None).
      { apply rank_by_none. unfold factor_add.
        unfold Terms.fcf_yield, rank.
        rewrite (rank_by_none snap true _ _ s E2).
        destruct (Terms.cash_return snap s); reflexivity. }
      rewrite Hv. reflexivity. }
  destruct (ms_roic snap s) eqn:E3.
  2:{ assert (Hr : Terms.roic snap s = None) by (apply rank_by_none; exact E3).
      rewrite Hr. destruct (Terms.value snap s); reflexivity. }
  destruct (ms_revenue_growth snap s) eqn:E4; [discriminate|].
  assert (Hg : Terms.rev_growth snap s = None) by (apply rank_by_none; exact E4).
  rewrite Hg.
  destruct (Terms.value snap s), (Terms.roic snap s); reflexivity.
Qed.

(** A security with a quality score has all four raw values. *)
Lemma complete_of_quality (snap : Snapshot) (s : Security) (q : Q) :
  Terms.quality snap s = Some q -> Spec.complete snap s = true.
Proof.
  intros H. destruct (Spec.complete snap s) eqn:E; [reflexivity|].
  rewrite (quality_none_of_incomplete snap s E) in H. discriminate.
Qed.

Lemma top_quality_unfold (snap : Snapshot) (K : Z) (s : Security) :
  Terms.top_quality snap K s =
  top snap K (Terms.quality snap) (Q500US snap) s && Spec.complete snap s.
Proof.
  unfold Terms.top_quality, filter_and, Spec.complete.
  rewrite !andb_assoc. reflexivity.
Qed.

(** C4. The quality candidates are the top [TOP_ROE_QTY] of the universe by
    quality score that also have all four raw values; a security that
    misses one of the four is no candidate and has no quality score; and
    the candidate list, which is always defined, is no longer than the list
    of the universe's complete securities, so that it shrinks with them. *)
Theorem quality_candidates (snap : Snapshot) (K : Z) :
  (forall s, In s (filter (Terms.top_quality snap K) (assets snap)) <->
             In s (filter (top snap K (Spec.QualityScore snap) (Q500US snap))
                          (assets snap))
             /\ Spec.complete snap s = true)
  /\ (forall s, Spec.complete snap s = false ->
                Terms.top_quality snap K s = false
                /\ Terms.quality snap s = None
                /\ Spec.QualityScore snap s = None)
  /\ (length (filter (Terms.top_quality snap K) (assets snap))
      <= count (fun s => Q500US snap s && Spec.complete snap s) (assets snap))%nat.
Proof.
  assert (Htop : forall s, top snap K (Terms.quality snap) (Q500US snap) s
                           = top snap K (Spec.QualityScore snap) (Q500US snap) s).
  { apply top_ext; [|reflexivity]. intros s _. apply quality_unfold. }
  split; [|split].
  - intros s. rewrite !filter_In, top_quality_unfold, andb_true_iff, Htop. tauto.
  - intros s H. split; [|split].
    + rewrite top_quality_unfold, H. apply andb_false_r.
    + apply quality_none_of_incomplete. exact H.
    + rewrite <- quality_unfold.
      apply quality_none_of_incomplete. exact H.
  - apply (count_mono (Terms.top_quality snap K)). intros s _ H.
    rewrite top_quality_unfold in H. apply andb_true_iff in H.
    destruct H as [Ht Hc]. apply top_true in Ht. destruct Ht as (_ & Hm & _).
    rewrite Hm, Hc. reflexivity.
Qed.

(** The four [notnull] filters remove nothing from the top [K]: a security
    without a quality score has no rank. *)
Lemma top_quality_is_top (snap : Snapshot) (K : Z) (s : Security) :
  Terms.top_quality snap K s = top snap K (Terms.quality snap) (Q500US snap) s.
Proof.
  rewrite top_quality_unfold.
  destruct (top snap K (Terms.quality snap) (Q500US snap) s) eqn:E;
    [|reflexivity].
  apply top_true in E. destruct E as (_ & _ & q & Hq).
  rewrite (complete_of_quality snap s q Hq). reflexivity.
Qed.

(** ** The momentum selector *)

Lemma ltb_to_nat (n : nat) (T : Z) :
  (n <? Z.to_nat T)%nat = (Z.of_nat n <? T)%Z.
Proof.
  destruct (Z.ltb_spec (Z.of_nat n) T) as [H | H].
  - apply Nat.ltb_lt. lia.
  - apply Nat.ltb_ge. lia.
Qed.

Lemma top_quality_momentum_unfold (snap : Snapshot) (K T W : Z) (s : Security) :
  Terms.top_quality_momentum snap K T W s =
  Spec.MomentumSelector snap (Terms.top_quality snap K) T W s.
Proof.
  unfold Terms.top_quality_momentum, Spec.MomentumSelector, Terms.momentum.
  rewrite top_unfold.
  set (tq := Terms.top_quality snap K). set (mom := Returns snap W).
  assert (Hs : top_data snap mom tq s =
               if in_assets snap s && tq s then option_map Qopp (mom s) else None)
    by reflexivity.
  unfold notnull at 1. rewrite Hs.
  destruct (in_assets snap s) eqn:Ha; [|reflexivity].
  destruct (tq s) eqn:Hq; [|reflexivity].
  unfold notnull. destruct (mom s) as [b|] eqn:Hb; [|reflexivity].
  simpl. rewrite ltb_to_nat. f_equal. f_equal. unfold predecessors.
  apply count_ext_in. intros t Ht.
  unfold ordinal_before. rewrite Hs. simpl.
  unfold top_data, masked. apply in_assets_In in Ht. rewrite Ht. simpl.
  unfold Spec.momentum_ahead. fold mom. rewrite Hb.
  destruct (tq t); [|reflexivity].
  destruct (mom t) as [a|]; [|reflexivity].
  simpl. rewrite Qltb_opp, Qeq_bool_opp. reflexivity.
Qed.

Lemma filter_idem {A : Type} (p : A -> bool) (l : list A) :
  filter p (filter p l) = filter p l.
Proof.
  induction l as [|x l IH]; [reflexivity|].
  simpl. destruct (p x) eqn:E; [|exact IH].
  simpl. rewrite E, IH. reflexivity.
Qed.

Lemma filter_true {A : Type} (l : list A) : filter (fun _ => true) l = l.
Proof.
  induction l as [|x l IH]; [reflexivity|]. simpl. rewrite IH. reflexivity.
Qed.

(** The labels of the rows that a query keeps. *)
Lemma labels_of_query {R : Type} (mk : Security -> R) (label : R -> Security)
    (p : R -> bool) (l : list Security) :
  (forall s, label (mk s) = s) ->
  map label (filter p (map mk l)) = filter (fun s => p (mk s)) l.
Proof.
  intros H. induction l as [|x l IH]; [reflexivity|].
  simpl. destruct (p (mk x)); simpl; rewrite IH; [rewrite H|]; reflexivity.
Qed.

Lemma Trend_pipeline_labels (context : Trend.Context) (snap : Snapshot) :
  map Trend.index (Trend.pipeline_output context snap)
  = filter (Trend.top_quality_momentum context snap) (assets snap).
Proof.
  unfold Trend.pipeline_output. rewrite map_map. simpl. apply map_id.
Qed.

Lemma NoTrend_pipeline_labels (context : NoTrend.Context) (snap : Snapshot) :
  map NoTrend.index (NoTrend.pipeline_output context snap)
  = filter (NoTrend.top_quality_momentum context snap) (assets snap).
Proof.
  unfold NoTrend.pipeline_output. rewrite map_map. simpl. apply map_id.
Qed.

Lemma NoTrend_stocks_to_hold (context : NoTrend.Context) (snap : Snapshot) :
  NoTrend.stocks_to_hold (NoTrend.pipeline_output context snap)
  = filter (NoTrend.top_quality_momentum context snap) (assets snap).
Proof.
  unfold NoTrend.stocks_to_hold, NoTrend.pipeline_output.
  rewrite labels_of_query by reflexivity. simpl.
  apply filter_idem.
Qed.

(** C5. The equity candidates of a cycle are the securities of the quality
    set that have a return over [MOMENTUM_LOOKBACK_DAYS] and fewer than
    [TARGET_SECURITIES] members of the quality set ahead of them by that
    return (descending, ties in column order): the quality score acts
    through the quality set only.  They label the rows of the frame of both
    variants and are the stocks that the no-trend variant holds. *)
Theorem momentum_selector_two_stage (snap : Snapshot) (K T W : Z) :
  (forall s, Terms.top_quality_momentum snap K T W s =
             Spec.MomentumSelector snap (Terms.top_quality snap K) T W s)
  /\ (forall context : NoTrend.Context,
        NoTrend.stocks_to_hold (NoTrend.pipeline_output context snap)
        = filter (Spec.MomentumSelector snap
                    (Terms.top_quality snap (NoTrend.TOP_ROE_QTY context))
                    (NoTrend.TARGET_SECURITIES context)
                    (NoTrend.MOMENTUM_LOOKBACK_DAYS context))
                 (assets snap))
  /\ (forall context : Trend.Context,
        map Trend.index (Trend.pipeline_output context snap)
        = filter (Spec.MomentumSelector snap
                    (Terms.top_quality snap (Trend.TOP_ROE_QTY context))
                    (Trend.TARGET_SECURITIES context)
                    (Trend.MOMENTUM_LOOKBACK_DAYS context))
                 (assets snap)).
Proof.
  split; [|split].
  - apply top_quality_momentum_unfold.
  - intros context. rewrite NoTrend_stocks_to_hold.
    apply filter_ext. intros s. apply top_quality_momentum_unfold.
  - intros context. rewrite Trend_pipeline_labels.
    apply filter_ext. intros s. apply top_quality_momentum_unfold.
Qed.

(** ** The trend filter *)

Lemma present_map_Some (qs : list Q) : present (map Some qs) = qs.
Proof.
  induction qs as [|q qs IH]; [reflexivity|].
  unfold present in *. simpl. rewrite IH. reflexivity.
Qed.

Lemma nanmean_one (x : Q) : exists m, nanmean [Some x] = Some m /\ m == x.
Proof.
  eexists. split; [reflexivity|]. simpl. field.
Qed.

Lemma factor_gt_Qeq (f g : Factor) (s : Security) (a a' b b' : Q) :
  f s = Some a' -> g s = Some b' -> a' == a -> b' == b ->
  factor_gt f g s = Qltb b a.
Proof.
  intros Hf Hg Ha Hb. unfold factor_gt. rewrite Hf, Hg.
  destruct (Qltb b a) eqn:E.
  - apply Qltb_lt in E. apply Qltb_lt. lra.
  - apply Qltb_ge in E. apply Qltb_ge. lra.
Qed.

(** [trend_up] compares the two averages of the benchmark, in every column. *)
Lemma trend_up_unfold (context : Trend.Context) (snap : Snapshot) (s : Security) :
  Trend.trend_up context snap s =
  match SMA snap (Trend.TF_FAST_LOOKBACK context) (Trend.SPY context),
        SMA snap (Trend.TF_SLOW_LOOKBACK context) (Trend.SPY context) with
  | Some fast, Some slow => Qltb slow fast
  | _, _ => false
  end.
Proof.
  unfold Trend.trend_up.
  assert (Hf : Trend.spy_ma_fast context snap s
               = nanmean [SMA snap (Trend.TF_FAST_LOOKBACK context) (Trend.SPY context)])
    by reflexivity.
  assert (Hs : Trend.spy_ma_slow context snap s
               = nanmean [SMA snap (Trend.TF_SLOW_LOOKBACK context) (Trend.SPY context)])
    by reflexivity.
  destruct (SMA snap (Trend.TF_FAST_LOOKBACK context) (Trend.SPY context)) as [fast|].
  - destruct (SMA snap (Trend.TF_SLOW_LOOKBACK context) (Trend.SPY context)) as [slow|].
    + destruct (nanmean_one fast) as (mf & Ef & Qf).
      destruct (nanmean_one slow) as (ms & Es & Qs).
      rewrite Ef in Hf. rewrite Es in Hs.
      apply (factor_gt_Qeq _ _ _ _ _ _ _ Hf Hs Qf Qs).
    + unfold factor_gt. rewrite Hs. simpl.
      destruct (Trend.spy_ma_fast context snap s); reflexivity.
  - unfold factor_gt. rewrite Hf. reflexivity.
Qed.

Lemma trend_up_TrendSignal (context : Trend.Context) (snap : Snapshot) (s : Security) :
  Trend.trend_up context snap s = Trend.TrendSignal context snap.
Proof.
  unfold Trend.TrendSignal. rewrite !trend_up_unfold. reflexivity.
Qed.

Lemma pipeline_row_trend_up (context : Trend.Context) (snap : Snapshot) (row : Trend.Row) :
  In row (Trend.pipeline_output context snap) ->
  Trend.row_trend_up row = Trend.TrendSignal context snap
  /\ Trend.row_top_quality_momentum row = true
  /\ Trend.top_quality_momentum context snap (Trend.index row) = true
  /\ In (Trend.index row) (assets snap).
Proof.
  unfold Trend.pipeline_output. rewrite in_map_iff.
  intros (s & <- & Hs). apply filter_In in Hs. destruct Hs as [Hin Hs].
  simpl in Hs |- *. rewrite Hs.
  repeat split; auto.
Qed.

(** C7. The trend signal is true exactly when both moving averages of the
    benchmark's closes exist and the fast one (window [TF_FAST_LOOKBACK]) is
    strictly greater than the slow one (window [TF_SLOW_LOOKBACK]), both
    taken from the same snapshot; equal averages give false; every row of
    the day's frame carries that signal; and over a window of closes that
    are all present the average is their sum divided by their number. *)
Theorem trend_signal_strict (context : Trend.Context) (snap : Snapshot) :
  let fast := SMA snap (Trend.TF_FAST_LOOKBACK context) (Trend.SPY context) in
  let slow := SMA snap (Trend.TF_SLOW_LOOKBACK context) (Trend.SPY context) in
  (Trend.TrendSignal context snap = true <->
   exists f s, fast = Some f /\ slow = Some s /\ s < f)
  /\ (forall f s, fast = Some f -> slow = Some s -> f == s ->
                  Trend.TrendSignal context snap = false)
  /\ (forall row, In row (Trend.pipeline_output context snap) ->
                  Trend.row_trend_up row = Trend.TrendSignal context snap)
  /\ (forall w q qs,
        window w (USEquityPricing_close snap (Trend.SPY context))
        = map Some (q :: qs) ->
        SMA snap w (Trend.SPY context)
        = Some (fold_right Qplus 0 (q :: qs)
                / inject_Z (Z.of_nat (length (q :: qs))))).
Proof.
  intros fast slow.
  assert (Hsig : Trend.TrendSignal context snap =
                 match fast, slow with
                 | Some f, Some s => Qltb s f
                 | _, _ => false
                 end) by apply trend_up_unfold.
  split; [|split; [|split]].
  - rewrite Hsig. split.
    + destruct fast as [f|]; [|discriminate].
      destruct slow as [s|]; [|discriminate].
      intros H. apply Qltb_lt in H. exists f, s. auto.
    + intros (f & s & -> & -> & H). apply Qltb_lt. exact H.
  - intros f s Hf Hs Heq. rewrite Hsig, Hf, Hs. apply Qltb_ge. lra.
  - intros row Hrow. apply (pipeline_row_trend_up _ _ _ Hrow).
  - intros w q qs Hw. unfold SMA, nanmean. rewrite Hw, present_map_Some.
    reflexivity.
Qed.

(** ** Series *)

Lemma Series_scalar_labels (l : list Security) (x : Q) :
  map fst (Series_scalar l x) = l.
Proof. unfold Series_scalar. rewrite map_map. simpl. apply map_id. Qed.

Lemma Series_scalar_In (l : list Security) (x : Q) (s : Security) (w : Q) :
  In (s, w) (Series_scalar l x) <-> In s l /\ w = x.
Proof.
  unfold Series_scalar. rewrite in_map_iff. split.
  - intros (t & E & Ht). inversion E; subst. auto.
  - intros [Hs ->]. exists s. auto.
Qed.

Lemma Series_sum_scalar (l : list Security) (x : Q) :
  Series_sum (Series_scalar l x) == inject_Z (Z.of_nat (length l)) * x.
Proof.
  unfold Series_sum, Series_scalar. induction l as [|s l IH].
  - simpl. ring.
  - cbn [map fold_right length snd]. rewrite IH.
    rewrite Nat2Z.inj_succ, <- Z.add_1_r, inject_Z_plus. ring.
Qed.

Lemma Series_sum_app (a b : Series) :
  Series_sum (a ++ b) == Series_sum a + Series_sum b.
Proof.
  unfold Series_sum. induction a as [|r a IH].
  - simpl. ring.
  - cbn [app map fold_right]. rewrite IH. ring.
Qed.

(** [n] slots of [1 / T] each fill at most the whole, when [n <= T]. *)
Lemma slots_le_1 (n T : Z) :
  (0 < T)%Z -> (0 <= n <= T)%Z ->
  0 < 1 / inject_Z T /\ 0 <= inject_Z n * (1 / inject_Z T) <= 1.
Proof.
  intros HT Hn.
  assert (Ht : 0 < inject_Z T) by (rewrite (Zlt_Qlt 0 T) in HT; exact HT).
  assert (Hn0 : 0 <= inject_Z n)
    by (change 0 with (inject_Z 0); rewrite <- Zle_Qle; lia).
  assert (HnT : inject_Z n <= inject_Z T) by (rewrite <- Zle_Qle; lia).
  assert (Hinv : 0 < 1 / inject_Z T).
  { apply Qlt_shift_div_l; [exact Ht | lra]. }
  repeat split.
  - exact Hinv.
  - apply Qmult_le_0_compat; lra.
  - assert (E : inject_Z n * (1 / inject_Z T) == inject_Z n / inject_Z T)
      by (field; lra).
    rewrite E. apply Qle_shift_div_r; [exact Ht | lra].
Qed.

(** ** The selection of the trend variant *)

Lemma Trend_select_unfold (context : Trend.Context) (df : Trend.DataFrame) :
  Trend.TARGET_SECURITIES context <> 0%Z -> Trend.BONDS context <> [] ->
  Trend.select_stocks_and_set_weights context df =
  Some (Trend.set_bond_weights
          (Trend.set_stock_weights context
             (Trend.selected_stock_weights context df))
          (Trend.selected_bond_weights context df)).
Proof.
  intros HT HB. unfold Trend.select_stocks_and_set_weights, true_div.
  destruct (Z.eqb_spec (Trend.TARGET_SECURITIES context) 0) as [E | _];
    [contradiction|].
  cbn [Trend.BONDS Trend.set_stock_weights Trend.stock_weights].
  destruct (Z.eqb_spec (Z.of_nat (length (Trend.BONDS context))) 0) as [E | _].
  - exfalso. apply HB.
    destruct (Trend.BONDS context); [reflexivity | discriminate].
  - reflexivity.
Qed.

(** A selection either raises or stores these weights, whatever weights the
    context held before. *)
Lemma Trend_select_cases (context : Trend.Context) (df : Trend.DataFrame) :
  Trend.select_stocks_and_set_weights context df = None
  \/ Trend.select_stocks_and_set_weights context df =
     Some (Trend.set_bond_weights
             (Trend.set_stock_weights context
                (Trend.selected_stock_weights context df))
             (Trend.selected_bond_weights context df)).
Proof.
  unfold Trend.select_stocks_and_set_weights, true_div.
  destruct (Trend.TARGET_SECURITIES context =? 0)%Z; [left; reflexivity|].
  cbn [Trend.BONDS Trend.set_stock_weights Trend.stock_weights].
  destruct (Z.of_nat (length (Trend.BONDS context)) =? 0)%Z;
    [left; reflexivity | right; reflexivity].
Qed.

Lemma Trend_stocks_to_hold_unfold (context : Trend.Context) (snap : Snapshot) :
  Trend.stocks_to_hold context (Trend.pipeline_output context snap) =
  filter (fun s => Trend.TrendSignal context snap
                   || (negb (Trend.TrendSignal context snap)
                       && isin s (Trend.portfolio_positions context)))
         (filter (Trend.top_quality_momentum context snap) (assets snap)).
Proof.
  unfold Trend.stocks_to_hold, Trend.pipeline_output.
  rewrite labels_of_query by reflexivity.
  apply filter_ext_in. intros s Hs. apply filter_In in Hs.
  destruct Hs as [_ Hs]. unfold Trend.rule. simpl. rewrite Hs. reflexivity.
Qed.

Lemma Trend_stocks_to_hold_In (context : Trend.Context) (snap : Snapshot)
    (s : Security) :
  In s (Trend.stocks_to_hold context (Trend.pipeline_output context snap)) <->
  In s (map Trend.index (Trend.pipeline_output context snap))
  /\ (Trend.TrendSignal context snap = true
      \/ (Trend.TrendSignal context snap = false
          /\ In s (Trend.portfolio_positions context))).
Proof.
  rewrite Trend_stocks_to_hold_unfold, Trend_pipeline_labels, filter_In.
  destruct (Trend.TrendSignal context snap); simpl.
  - intuition.
  - rewrite isin_In. intuition discriminate.
Qed.

Lemma Trend_stocks_to_hold_length (context : Trend.Context) (snap : Snapshot) :
  NoDup (assets snap) ->
  (length (Trend.stocks_to_hold context (Trend.pipeline_output context snap))
   <= Z.to_nat (Trend.TARGET_SECURITIES context))%nat.
Proof.
  intros Hnd. rewrite Trend_stocks_to_hold_unfold.
  eapply Nat.le_trans; [apply filter_length_le|].
  apply (count_top snap _ _ _ Hnd).
Qed.

Lemma NoTrend_select_unfold (context : NoTrend.Context) (df : NoTrend.DataFrame) :
  NoTrend.TARGET_SECURITIES context <> 0%Z ->
  NoTrend.select_stocks_and_set_weights context df =
  Some (NoTrend.set_stock_weights context
          (Series_scalar (NoTrend.stocks_to_hold df)
                         (1 / inject_Z (NoTrend.TARGET_SECURITIES context)))).
Proof.
  intros HT. unfold NoTrend.select_stocks_and_set_weights, true_div.
  destruct (Z.eqb_spec (NoTrend.TARGET_SECURITIES context) 0) as [E | _];
    [contradiction | reflexivity].
Qed.

Lemma NoTrend_stocks_to_hold_length (context : NoTrend.Context) (snap : Snapshot) :
  NoDup (assets snap) ->
  (length (NoTrend.stocks_to_hold (NoTrend.pipeline_output context snap))
   <= Z.to_nat (NoTrend.TARGET_SECURITIES context))%nat.
Proof.
  intros Hnd. rewrite NoTrend_stocks_to_hold.
  apply (count_top snap _ _ _ Hnd).
Qed.

(** ** The weights *)

(** Equal slots of [1 / T], at most [T] of them. *)
Lemma equal_slots (l : list Security) (T : Z) :
  (0 < T)%Z -> (length l <= Z.to_nat T)%nat ->
  0 < 1 / inject_Z T
  /\ 0 <= Series_sum (Series_scalar l (1 / inject_Z T)) <= 1.
Proof.
  intros HT Hl.
  destruct (slots_le_1 (Z.of_nat (length l)) T HT) as (Hw & H0 & H1); [lia|].
  split; [exact Hw|]. rewrite Series_sum_scalar. split; assumption.
Qed.

(** The rest of the budget, split over a basket that is not empty. *)
Lemma basket_split (basket : list Security) (S : Q) :
  basket <> [] -> 0 <= S <= 1 ->
  let w := py_max (1 - S) 0 / inject_Z (Z.of_nat (length basket)) in
  0 <= w /\ Series_sum (Series_scalar basket w) == 1 - S.
Proof.
  intros Hb HS w.
  assert (HB : 0 < inject_Z (Z.of_nat (length basket))).
  { change 0 with (inject_Z 0). rewrite <- Zlt_Qlt.
    destruct basket; [contradiction | simpl; lia]. }
  assert (Hm : py_max (1 - S) 0 = 1 - S).
  { unfold py_max. replace (Qltb (1 - S) 0) with false; [reflexivity|].
    symmetry. apply Qltb_ge. lra. }
  unfold w. rewrite Hm. split.
  - apply Qle_shift_div_l; [exact HB | lra].
  - rewrite Series_sum_scalar. field. lra.
Qed.

(** C1. In every cycle, on a snapshot whose columns are distinct assets
    and with a positive number of equity slots (and, in the trend variant,
    a basket of bonds that is not empty), the selection completes and the
    weights it stores - the stock weights followed by the bond weights in
    the trend variant, the stock weights in the other - are all
    non-negative and sum to at most 1. *)
Theorem weights_within_budget (tcontext : Trend.Context)
    (ncontext : NoTrend.Context) (snap : Snapshot) :
  NoDup (assets snap) ->
  (0 < Trend.TARGET_SECURITIES tcontext)%Z ->
  Trend.BONDS tcontext <> [] ->
  (0 < NoTrend.TARGET_SECURITIES ncontext)%Z ->
  (exists context',
      Trend.select_stocks_and_set_weights tcontext
        (Trend.pipeline_output tcontext snap) = Some context'
      /\ Spec.within_budget (Trend.total_weights context'))
  /\ (exists context',
        NoTrend.select_stocks_and_set_weights ncontext
          (NoTrend.pipeline_output ncontext snap) = Some context'
        /\ Spec.within_budget (NoTrend.stock_weights context')).
Proof.
  intros Hnd HT HB HN. split.
  - rewrite Trend_select_unfold by (auto; lia).
    eexists. split; [reflexivity|].
    unfold Trend.total_weights.
    cbn [Trend.stock_weights Trend.bond_weights Trend.set_bond_weights
         Trend.set_stock_weights].
    set (df := Trend.pipeline_output tcontext snap).
    destruct (equal_slots (Trend.stocks_to_hold tcontext df)
                (Trend.TARGET_SECURITIES tcontext) HT
                (Trend_stocks_to_hold_length tcontext snap Hnd))
      as (Hw & HS).
    fold (Trend.selected_stock_weights tcontext df) in HS.
    destruct (basket_split (Trend.BONDS tcontext)
                (Series_sum (Trend.selected_stock_weights tcontext df)) HB HS)
      as (Hb & Hsum).
    split.
    + intros s w Hin. apply in_app_or in Hin. destruct Hin as [Hin | Hin].
      * apply Series_scalar_In in Hin. destruct Hin as [_ ->]. lra.
      * apply Series_scalar_In in Hin. destruct Hin as [_ ->]. exact Hb.
    + rewrite Series_sum_app. unfold Trend.selected_bond_weights at 1.
      rewrite Hsum. lra.
  - rewrite NoTrend_select_unfold by lia.
    eexists. split; [reflexivity|].
    cbn [NoTrend.stock_weights NoTrend.set_stock_weights].
    destruct (equal_slots
                (NoTrend.stocks_to_hold (NoTrend.pipeline_output ncontext snap))
                (NoTrend.TARGET_SECURITIES ncontext) HN
                (NoTrend_stocks_to_hold_length ncontext snap Hnd))
      as (Hw & HS).
    split.
    + intros s w Hin. apply Series_scalar_In in Hin. destruct Hin as [_ ->]. lra.
    + apply HS.
Qed.

Ltac distinct_columns :=
  repeat (constructor; [simpl; intuition discriminate|]); constructor.

Lemma weights_within_budget_witness :
  NoDup (assets Sample.falling_market)
  /\ (exists context',
         Trend.select_stocks_and_set_weights Sample.trend_context
           (Trend.pipeline_output Sample.trend_context Sample.falling_market)
         = Some context'
         /\ Spec.within_budget (Trend.total_weights context'))
  /\ (exists context',
         NoTrend.select_stocks_and_set_weights NoTrend.initialize
           (NoTrend.pipeline_output NoTrend.initialize Sample.falling_market)
         = Some context'
         /\ Spec.within_budget (NoTrend.stock_weights context')).
Proof.
  assert (Hnd : NoDup (assets Sample.falling_market)) by distinct_columns.
  split; [exact Hnd|].
  apply (weights_within_budget Sample.trend_context NoTrend.initialize
           Sample.falling_market Hnd).
  - reflexivity.
  - discriminate.
  - reflexivity.
Defined.

(** ** The trend gate *)

(** C2. In the trend variant, when the selection completes, a security of
    the momentum selector's output is among the stocks that get a weight
    if and only if the trend signal is true, or it is false and the
    security is held when the cycle starts; so under a false signal every
    stock that gets a weight is one of the holdings. *)
Theorem trend_gate (context : Trend.Context) (snap : Snapshot) :
  Trend.TARGET_SECURITIES context <> 0%Z ->
  Trend.BONDS context <> [] ->
  exists context',
    Trend.select_stocks_and_set_weights context
      (Trend.pipeline_output context snap) = Some context'
    /\ (forall s,
          In s (map Trend.index (Trend.pipeline_output context snap)) ->
          (In s (map fst (Trend.stock_weights context')) <->
           Trend.TrendSignal context snap = true
           \/ (Trend.TrendSignal context snap = false
               /\ In s (Trend.portfolio_positions context))))
    /\ (Trend.TrendSignal context snap = false ->
        forall s, In s (map fst (Trend.stock_weights context')) ->
                  In s (Trend.portfolio_positions context)).
Proof.
  intros HT HB. rewrite Trend_select_unfold by assumption.
  eexists. split; [reflexivity|].
  cbn [Trend.stock_weights Trend.set_bond_weights Trend.set_stock_weights].
  unfold Trend.selected_stock_weights. rewrite Series_scalar_labels.
  split.
  - intros s Hs. rewrite Trend_stocks_to_hold_In. tauto.
  - intros Hdown s Hs. apply Trend_stocks_to_hold_In in Hs.
    destruct Hs as [_ [Hup | [_ Hheld]]]; [congruence | exact Hheld].
Qed.

Lemma trend_gate_witness :
  exists context',
    Trend.select_stocks_and_set_weights Sample.trend_context
      (Trend.pipeline_output Sample.trend_context Sample.falling_market)
    = Some context'
    /\ (forall s,
          In s (map Trend.index
                  (Trend.pipeline_output Sample.trend_context
                     Sample.falling_market)) ->
          (In s (map fst (Trend.stock_weights context')) <->
           Trend.TrendSignal Sample.trend_context Sample.falling_market = true
           \/ (Trend.TrendSignal Sample.trend_context Sample.falling_market
               = false
               /\ In s (Trend.portfolio_positions Sample.trend_context))))
    /\ (Trend.TrendSignal Sample.trend_context Sample.falling_market = false ->
        forall s, In s (map fst (Trend.stock_weights context')) ->
                  In s (Trend.portfolio_positions Sample.trend_context)).
Proof.
  apply (trend_gate Sample.trend_context Sample.falling_market);
    discriminate.
Defined.

(** ** The allocation *)

(** C6. In the trend variant, when the selection completes, the stock
    weights give exactly [1 / TARGET_SECURITIES] to each stock to hold; the
    bond weights have one row for each member of [BONDS], in every cycle,
    whose value is max(1 - sum of the stock weights, 0) divided by the
    number of bonds; and when the trend signal is false and no holding is
    in the momentum selector's output, no stock gets a weight and the
    bonds share the whole budget evenly. *)
Theorem allocator_weights (context : Trend.Context) (snap : Snapshot) :
  Trend.TARGET_SECURITIES context <> 0%Z ->
  Trend.BONDS context <> [] ->
  let df := Trend.pipeline_output context snap in
  exists context',
    Trend.select_stocks_and_set_weights context df = Some context'
    /\ Trend.stock_weights context'
       = Series_scalar (Trend.stocks_to_hold context df)
                       (Spec.equity_weight (Trend.TARGET_SECURITIES context))
    /\ map fst (Trend.bond_weights context') = Trend.BONDS context
    /\ (forall b w, In (b, w) (Trend.bond_weights context') ->
                    w == Spec.defensive_weight (Trend.stock_weights context')
                                               (Trend.BONDS context))
    /\ (Trend.TrendSignal context snap = false ->
        (forall s, In s (Trend.portfolio_positions context) ->
                   ~ In s (map Trend.index df)) ->
        Trend.stock_weights context' = []
        /\ (forall b w, In (b, w) (Trend.bond_weights context') ->
                        w == 1 / inject_Z (Z.of_nat (length (Trend.BONDS context))))
        /\ Series_sum (Trend.bond_weights context') == 1).
Proof.
  intros HT HB df. rewrite Trend_select_unfold by assumption.
  eexists. split; [reflexivity|].
  cbn [Trend.stock_weights Trend.bond_weights Trend.set_bond_weights
       Trend.set_stock_weights].
  split; [reflexivity|].
  split; [apply Series_scalar_labels|].
  split.
  - intros b w Hin. apply Series_scalar_In in Hin. destruct Hin as [_ ->].
    unfold Spec.defensive_weight. rewrite py_max_Qmax. reflexivity.
  - intros Hdown Hnone.
    assert (Hempty : Trend.stocks_to_hold context df = []).
    { destruct (Trend.stocks_to_hold context df) as [|s l] eqn:E; [reflexivity|].
      exfalso.
      assert (Hs : In s (Trend.stocks_to_hold context df))
        by (rewrite E; left; reflexivity).
      apply Trend_stocks_to_hold_In in Hs.
      destruct Hs as [Hout [Hup | [_ Hheld]]]; [congruence|].
      exact (Hnone s Hheld Hout). }
    assert (HB' : ~ inject_Z (Z.of_nat (length (Trend.BONDS context))) == 0).
    { intros E. apply HB.
      change 0 with (inject_Z 0) in E. apply inject_Z_injective in E.
      destruct (Trend.BONDS context); [reflexivity | discriminate]. }
    unfold Trend.selected_bond_weights, Trend.selected_stock_weights.
    rewrite Hempty. cbn [Series_scalar map Series_sum fold_right].
    assert (Hm : py_max (1 - 0) 0 == 1) by reflexivity.
    split; [reflexivity|]. split.
    + intros b w Hin. apply Series_scalar_In in Hin. destruct Hin as [_ ->].
      rewrite Hm. reflexivity.
    + rewrite Series_sum_scalar, Hm. field. exact HB'.
Qed.

Lemma allocator_weights_witness :
  exists context',
    Trend.select_stocks_and_set_weights Sample.sidelined_context
      (Trend.pipeline_output Sample.sidelined_context Sample.falling_market)
    = Some context'
    /\ Trend.stock_weights context' = []
    /\ map fst (Trend.bond_weights context') = ["IEF"; "TLT"]%string
    /\ (forall b w, In (b, w) (Trend.bond_weights context') -> w == 1 / 2)
    /\ Series_sum (Trend.bond_weights context') == 1.
Proof.
  destruct (allocator_weights Sample.sidelined_context Sample.falling_market)
    as (c & Hsel & _ & Hlabels & _ & Hdown); [discriminate | discriminate |].
  destruct Hdown as (Hstocks & Hbonds & Hsum).
  - reflexivity.
  - intros s Hheld Hout. destruct Hheld as [<- | []].
    vm_compute in Hout. intuition discriminate.
  - exists c. repeat split; assumption.
Defined.

(** ** The sizes of the two stages *)

Lemma count_top_quality (snap : Snapshot) (K : Z) :
  NoDup (assets snap) ->
  (count (Terms.top_quality snap K) (assets snap) <= Z.to_nat K)%nat.
Proof.
  intros Hnd.
  eapply Nat.le_trans;
    [|apply (count_top snap K (Terms.quality snap) (Q500US snap) Hnd)].
  apply count_mono. intros s _ H. rewrite top_quality_unfold in H.
  apply andb_true_iff in H. tauto.
Qed.

Lemma top_quality_momentum_in_top_quality (snap : Snapshot) (K T W : Z)
    (s : Security) :
  Terms.top_quality_momentum snap K T W s = true ->
  Terms.top_quality snap K s = true.
Proof.
  intros H. apply top_true in H. tauto.
Qed.

(** The claim C8 as the specification states it fails: with the constants
    of [initialize] and a universe of three complete stocks the quality
    output has three members, fewer than the five of [TARGET_SECURITIES]. *)
Lemma target_above_quality_output :
  ~ (Trend.TARGET_SECURITIES Sample.trend_context
     <= Z.of_nat (length (filter (Trend.top_quality Sample.trend_context
                                    Sample.thin_market)
                                 (assets Sample.thin_market))))%Z.
Proof. vm_compute. intros H. apply H. reflexivity. Qed.

(** C8, amended. On a snapshot whose columns are distinct assets, with
    non-negative [TOP_ROE_QTY] and [TARGET_SECURITIES]: the quality output
    has at most [TOP_ROE_QTY] members, the momentum output has at most
    [TARGET_SECURITIES] members, and the momentum output is part of the
    quality output, so that it is no larger. *)
Theorem stage_sizes (snap : Snapshot) (K T W : Z) :
  NoDup (assets snap) -> (0 <= K)%Z -> (0 <= T)%Z ->
  let quality_output := filter (Terms.top_quality snap K) (assets snap) in
  let momentum_output :=
    filter (Terms.top_quality_momentum snap K T W) (assets snap) in
  (Z.of_nat (length quality_output) <= K)%Z
  /\ (Z.of_nat (length momentum_output) <= T)%Z
  /\ incl momentum_output quality_output
  /\ (length momentum_output <= length quality_output)%nat.
Proof.
  intros Hnd HK HT quality_output momentum_output.
  repeat split.
  - pose proof (count_top_quality snap K Hnd) as H. unfold count in H.
    unfold quality_output. lia.
  - pose proof (count_top snap T (Terms.momentum snap W)
                  (Terms.top_quality snap K) Hnd) as H.
    unfold count in H. unfold momentum_output, Terms.top_quality_momentum. lia.
  - intros s Hs. apply filter_In in Hs. destruct Hs as [Hin Hs].
    apply filter_In. split; [exact Hin|].
    apply (top_quality_momentum_in_top_quality _ _ _ _ _ Hs).
  - apply (count_mono (Terms.top_quality_momentum snap K T W)
                       (Terms.top_quality snap K)).
    intros s _ Hs. apply (top_quality_momentum_in_top_quality _ _ _ _ _ Hs).
Qed.

Lemma stage_sizes_witness :
  NoDup (assets Sample.falling_market)
  /\ (Z.of_nat (length (filter (Terms.top_quality Sample.falling_market 50)
                               (assets Sample.falling_market))) <= 50)%Z
  /\ (Z.of_nat (length (filter (Terms.top_quality_momentum
                                  Sample.falling_market 50 5 140)
                               (assets Sample.falling_market))) <= 5)%Z
  /\ incl (filter (Terms.top_quality_momentum Sample.falling_market 50 5 140)
                  (assets Sample.falling_market))
          (filter (Terms.top_quality Sample.falling_market 50)
                  (assets Sample.falling_market))
  /\ (length (filter (Terms.top_quality_momentum Sample.falling_market 50 5 140)
                     (assets Sample.falling_market))
      <= length (filter (Terms.top_quality Sample.falling_market 50)
                        (assets Sample.falling_market)))%nat.
Proof.
  assert (Hnd : NoDup (assets Sample.falling_market)) by distinct_columns.
  split; [exact Hnd|].
  apply (stage_sizes Sample.falling_market 50 5 140 Hnd); discriminate.
Defined.

(** ** Running the selection again *)

(** C9. In both variants, running the selection a second time on the same
    frame, from the context the first run left (the holdings being those
    of the first run), gives what the first run gave: the same context,
    hence the same stock weights and bond weights, or the same exception. *)
Theorem select_twice (tcontext : Trend.Context) (tdf : Trend.DataFrame)
    (ncontext : NoTrend.Context) (ndf : NoTrend.DataFrame) :
  (context' <- Trend.select_stocks_and_set_weights tcontext tdf ;;
   Trend.select_stocks_and_set_weights context' tdf)
  = Trend.select_stocks_and_set_weights tcontext tdf
  /\ (context' <- NoTrend.select_stocks_and_set_weights ncontext ndf ;;
      NoTrend.select_stocks_and_set_weights context' ndf)
     = NoTrend.select_stocks_and_set_weights ncontext ndf.
Proof.
  split.
  - unfold Trend.select_stocks_and_set_weights, true_div.
    destruct (Trend.TARGET_SECURITIES tcontext =? 0)%Z eqn:ET; [reflexivity|].
    cbn [Trend.BONDS Trend.set_stock_weights Trend.stock_weights].
    destruct (Z.of_nat (length (Trend.BONDS tcontext)) =? 0)%Z eqn:EB;
      [reflexivity|].
    cbn [Trend.TARGET_SECURITIES Trend.BONDS Trend.set_bond_weights
         Trend.set_stock_weights Trend.stock_weights].
    rewrite ET, EB. reflexivity.
  - unfold NoTrend.select_stocks_and_set_weights, true_div.
    destruct (NoTrend.TARGET_SECURITIES ncontext =? 0)%Z eqn:ET; [reflexivity|].
    cbn [NoTrend.TARGET_SECURITIES NoTrend.set_stock_weights]. rewrite ET.
    reflexivity.
Qed.

(** ** The holdings under a true signal *)

(** C10. In the trend variant, when the trend signal of the cycle is true,
    two selections on the same snapshot from contexts that differ in the
    holdings only complete with the same stock weights and the same bond
    weights. *)
Theorem uptrend_ignores_holdings (context : Trend.Context) (snap : Snapshot)
    (positions1 positions2 : list Security) :
  Trend.TARGET_SECURITIES context <> 0%Z ->
  Trend.BONDS context <> [] ->
  Trend.TrendSignal context snap = true ->
  let context1 := Trend.set_portfolio_positions context positions1 in
  let context2 := Trend.set_portfolio_positions context positions2 in
  exists context1' context2',
    Trend.select_stocks_and_set_weights context1
      (Trend.pipeline_output context1 snap) = Some context1'
    /\ Trend.select_stocks_and_set_weights context2
         (Trend.pipeline_output context2 snap) = Some context2'
    /\ Trend.stock_weights context1' = Trend.stock_weights context2'
    /\ Trend.bond_weights context1' = Trend.bond_weights context2'.
Proof.
  intros HT HB Hup context1 context2.
  assert (Hstocks : forall positions,
            Trend.stocks_to_hold
              (Trend.set_portfolio_positions context positions)
              (Trend.pipeline_output
                 (Trend.set_portfolio_positions context positions) snap)
            = filter (Trend.top_quality_momentum context snap) (assets snap)).
  { intros positions. rewrite Trend_stocks_to_hold_unfold.
    change (Trend.TrendSignal (Trend.set_portfolio_positions context positions)
              snap) with (Trend.TrendSignal context snap).
    rewrite Hup. simpl orb.
    rewrite filter_true. reflexivity. }
  rewrite !Trend_select_unfold by assumption.
  do 2 eexists. split; [reflexivity|]. split; [reflexivity|].
  cbn [Trend.stock_weights Trend.bond_weights Trend.set_bond_weights
       Trend.set_stock_weights].
  unfold Trend.selected_bond_weights, Trend.selected_stock_weights.
  unfold context1, context2. rewrite !Hstocks. split; reflexivity.
Qed.

Lemma uptrend_ignores_holdings_witness :
  Trend.TrendSignal Sample.trend_context Sample.rising_market = true
  /\ exists context1' context2',
       Trend.select_stocks_and_set_weights
         (Trend.set_portfolio_positions Sample.trend_context [])
         (Trend.pipeline_output
            (Trend.set_portfolio_positions Sample.trend_context [])
            Sample.rising_market) = Some context1'
       /\ Trend.select_stocks_and_set_weights
            (Trend.set_portfolio_positions Sample.trend_context
               ["E"; "F"]%string)
            (Trend.pipeline_output
               (Trend.set_portfolio_positions Sample.trend_context
                  ["E"; "F"]%string)
               Sample.rising_market) = Some context2'
       /\ Trend.stock_weights context1' = Trend.stock_weights context2'
       /\ Trend.bond_weights context1' = Trend.bond_weights context2'.
Proof.
  split; [reflexivity|].
  apply (uptrend_ignores_holdings Sample.trend_context Sample.rising_market
           [] ["E"; "F"]%string); [discriminate | discriminate | reflexivity].
Defined.

(** ** The weights in binary64 at the constants of [initialize] *)

(** With five equity slots and two bonds the rounded weights are never
    negative and add up to 1.0 exactly, however many of the slots are
    filled; the stock weights alone, which are the weights of the variant
    without the trend filter, add up to at most 1.0. *)
Lemma binary64_five_slots (n : nat) :
  (n <= 5)%nat ->
  Binary64.within (Binary64.of_int 1) (Binary64.total_weights 5 2 n) = true
  /\ Binary64.Series_sum (Binary64.total_weights 5 2 n) = Binary64.of_int 1
  /\ Binary64.within (Binary64.of_int 1) (Binary64.stock_weights 5 n) = true.
Proof.
  intros Hn.
  do 6 (destruct n as [|n]; [repeat split; vm_compute; reflexivity|]).
  lia.
Qed.

(** The bound of 1.0 is not exact for every configuration: nine slots of
    the float 1/9, all filled, add up to more than 1.0, by one unit in the
    last place. *)
Lemma binary64_nine_slots :
  SFltb (Binary64.of_int 1)
        (Binary64.Series_sum (Binary64.total_weights 9 2 9)) = true
  /\ Binary64.Series_sum (Binary64.total_weights 9 2 9)
     = SFsucc Binary64.prec Binary64.emax (Binary64.of_int 1).
Proof. split; vm_compute; reflexivity. Qed.

(** On every snapshot whose columns are distinct assets, the selection of
    the trend variant after [initialize] holds at most five stocks, so that
    the weights it computes in binary64 are within the budget. *)
Lemma binary64_within_budget (context : Trend.Context) (snap : Snapshot) :
  NoDup (assets snap) ->
  let context := Trend.initialize context in
  let n := length (Trend.stocks_to_hold context
                     (Trend.pipeline_output context snap)) in
  Binary64.within (Binary64.of_int 1)
    (Binary64.total_weights (Trend.TARGET_SECURITIES context)
       (length (Trend.BONDS context)) n) = true.
Proof.
  intros Hnd context0 n.
  assert (Hn : (n <= 5)%nat)
    by apply (Trend_stocks_to_hold_length context0 snap Hnd).
  apply (binary64_five_slots n Hn).
Qed.

(** ** The scenarios of the specification *)

Example scenario_no_trend :
  option_map NoTrend.stock_weights
    (NoTrend.select_stocks_and_set_weights Sample.no_trend_scenario_context
       (NoTrend.pipeline_output Sample.no_trend_scenario_context
          Sample.five_stocks))
  = Some [("B"%string, 1 # 2); ("C"%string, 1 # 2)].
Proof. vm_compute. reflexivity. Qed.

Example scenario_trend_down :
  Trend.TrendSignal Sample.scenario_context Sample.five_stocks = false
  /\ option_map Trend.total_weights
       (Trend.select_stocks_and_set_weights Sample.scenario_context
          (Trend.pipeline_output Sample.scenario_context Sample.five_stocks))
     = Some [("C"%string, 1 # 2); ("bond1"%string, 1 # 4);
             ("bond2"%string, 1 # 4)].
Proof. split; vm_compute; reflexivity. Qed.

(** * Further properties

    ** How many columns a [top] filter passes *)

Section ExactCount.
Context {A : Type}.
Variable l : list A.
Variable beats : A -> A -> bool.
Variable valid : A -> bool.
Variable eq_dec : forall x y : A, {x = y} + {x <> y}.

Hypothesis beats_irrefl : forall x, beats x x = false.
Hypothesis beats_trans :
  forall x y z, beats x y = true -> beats y z = true -> beats x z = true.
Hypothesis beats_total :
  forall x y, In x l -> In y l -> valid x = true -> valid y = true ->
              x <> y -> beats x y = true \/ beats y x = true.
Hypothesis beats_valid : forall x y, beats x y = true -> valid x = true.
Hypothesis l_distinct : NoDup l.

Let below (n : nat) : nat :=
  count (fun x => valid x && (predecessors l beats x <? n)%nat) l.

Lemma below_step (n : nat) : (below (S n) <= below n + 1)%nat.
Proof.
  unfold below.
  assert (H1 : (count (fun x => valid x && (predecessors l beats x =? n)%nat) l
                <= 1)%nat).
  { apply count_unique; [exact l_distinct|].
    intros x y Hx Hy Px Py.
    apply andb_true_iff in Px. destruct Px as [Vx Ex].
    apply andb_true_iff in Py. destruct Py as [Vy Ey].
    apply Nat.eqb_eq in Ex. apply Nat.eqb_eq in Ey.
    apply (predecessors_inj l beats valid eq_dec beats_irrefl beats_trans
             beats_total x y Hx Hy Vx Vy). congruence. }
  assert (H2 : (count (fun x => valid x && (predecessors l beats x <? S n)%nat) l
                <= count (fun x => valid x && (predecessors l beats x <? n)%nat) l
                   + count (fun x => valid x && (predecessors l beats x =? n)%nat) l)%nat).
  { apply count_or. intros x _ Hx.
    apply andb_true_iff in Hx. destruct Hx as [Vx Lx].
    apply Nat.ltb_lt in Lx. rewrite Vx. simpl.
    destruct (Nat.eq_dec (predecessors l beats x) n) as [E | E].
    - right. apply Nat.eqb_eq. exact E.
    - left. apply Nat.ltb_lt. lia. }
  lia.
Qed.

Lemma below_add (n k : nat) : (below (n + k) <= below n + k)%nat.
Proof.
  induction k as [|k IH].
  - rewrite Nat.add_0_r. lia.
  - rewrite Nat.add_succ_r. pose proof (below_step (n + k)). lia.
Qed.

Lemma predecessors_lt_valid (x : A) :
  In x l -> valid x = true -> (predecessors l beats x < count valid l)%nat.
Proof.
  intros Hx Vx. unfold predecessors.
  apply count_mono_strict with (m := x); auto.
  intros t _ Ht. apply (beats_valid t x Ht).
Qed.

Lemma below_all (n : nat) :
  (count valid l <= n)%nat -> below n = count valid l.
Proof.
  intros Hn. unfold below. apply count_ext_in. intros x Hx.
  destruct (valid x) eqn:Vx; [|reflexivity].
  simpl. apply Nat.ltb_lt.
  pose proof (predecessors_lt_valid x Hx Vx). lia.
Qed.

(** The valid members with fewer than [n] predecessors are [n], or all the
    valid members when these are fewer. *)
Lemma count_predecessors_exact (n : nat) :
  below n = Nat.min n (count valid l).
Proof.
  destruct (Nat.le_gt_cases (count valid l) n) as [H | H].
  - rewrite below_all by exact H. lia.
  - assert (Hle : (below n <= n)%nat)
      by apply (count_predecessors_below l beats valid eq_dec beats_irrefl
                  beats_trans beats_total n l_distinct).
    pose proof (below_add n (count valid l - n)) as Hadd.
    replace (n + (count valid l - n))%nat with (count valid l) in Hadd by lia.
    rewrite below_all in Hadd by lia. lia.
Qed.
End ExactCount.

Lemma ordinal_before_valid (snap : Snapshot) (data : Factor) (t s : Security) :
  ordinal_before snap data t s = true -> notnull data t = true.
Proof.
  unfold ordinal_before, notnull. destruct (data t); [reflexivity | discriminate].
Qed.

(** [top N] passes the [N] first of the ranked columns, or all of them when
    fewer are ranked. *)
Lemma count_top_exact (snap : Snapshot) (N : Z) (f : Factor) (mask : Filter) :
  NoDup (assets snap) ->
  count (top snap N f mask) (assets snap)
  = Nat.min (Z.to_nat N) (count (notnull (top_data snap f mask)) (assets snap)).
Proof.
  intros Hnd.
  rewrite <- (count_predecessors_exact (assets snap)
                (ordinal_before snap (top_data snap f mask))
                (notnull (top_data snap f mask)) string_dec
                (ordinal_before_irrefl snap (top_data snap f mask))
                (ordinal_before_trans snap (top_data snap f mask))
                (ordinal_before_total snap (top_data snap f mask))
                (ordinal_before_valid snap (top_data snap f mask))
                Hnd (Z.to_nat N)).
  apply count_ext_in. intros s _. apply top_unfold.
Qed.

(** ** The exact sizes of the two stages *)

Lemma rank_some (snap : Snapshot) (f : Factor) (mask : Filter) (s : Security)
    (v : Q) :
  In s (assets snap) -> mask s = true -> f s = Some v ->
  exists r, rank snap f mask s = Some r.
Proof.
  intros Hin Hm Hf. unfold rank, rank_by, masked.
  apply in_assets_In in Hin. rewrite Hin, Hm, Hf. simpl. eauto.
Qed.

Lemma quality_some (snap : Snapshot) (s : Security) :
  In s (assets snap) -> Q500US snap s = true -> Spec.complete snap s = true ->
  exists q, Terms.quality snap s = Some q.
Proof.
  intros Hin Hu Hc. unfold Spec.complete, notnull in Hc.
  destruct (ms_cash_return snap s) as [c|] eqn:E1; [|discriminate].
  destruct (ms_fcf_yield snap s) as [y|] eqn:E2; [|discriminate].
  destruct (ms_roic snap s) as [r|] eqn:E3; [|discriminate].
  destruct (ms_revenue_growth snap s) as [g|] eqn:E4; [|discriminate].
  destruct (rank_some snap (ms_cash_return snap) (Q500US snap) s c Hin Hu E1)
    as [rc Hrc].
  destruct (rank_some snap (ms_fcf_yield snap) (Q500US snap) s y Hin Hu E2)
    as [ry Hry].
  destruct (rank_some snap (ms_roic snap) (Q500US snap) s r Hin Hu E3)
    as [rr Hrr].
  destruct (rank_some snap (ms_revenue_growth snap) (Q500US snap) s g Hin Hu E4)
    as [rg Hrg].
  assert (Hsum : (Terms.cash_return snap + Terms.fcf_yield snap)%pipe s
                 = Some (rc + ry)).
  { unfold factor_add, Terms.cash_return, Terms.fcf_yield,
           Terms.cash_return_latest, Terms.fcf_yield_latest, Terms.universe.
    rewrite Hrc, Hry. reflexivity. }
  destruct (rank_some snap _ (Q500US snap) s (rc + ry) Hin Hu Hsum) as [rv Hrv].
  exists (rv + rr + rg).
  unfold Terms.quality, factor_add.
  change (Terms.value snap s) with
    (rank snap (Terms.cash_return snap + Terms.fcf_yield snap)%pipe
       (Q500US snap) s).
  rewrite Hrv.
  change (Terms.roic snap s) with (rank snap (ms_roic snap) (Q500US snap) s).
  rewrite Hrr.
  change (Terms.rev_growth snap s)
    with (rank snap (ms_revenue_growth snap) (Q500US snap) s).
  rewrite Hrg. reflexivity.
Qed.

Lemma count_top_quality_exact (snap : Snapshot) (K : Z) :
  NoDup (assets snap) ->
  count (Terms.top_quality snap K) (assets snap)
  = Nat.min (Z.to_nat K)
      (count (fun s => Q500US snap s && Spec.complete snap s) (assets snap)).
Proof.
  intros Hnd.
  rewrite (count_ext_in (Terms.top_quality snap K)
             (top snap K (Terms.quality snap) (Q500US snap)))
    by (intros s _; apply top_quality_is_top).
  rewrite count_top_exact by exact Hnd. f_equal.
  apply count_ext_in. intros s Hin.
  unfold notnull, top_data, masked.
  rewrite (proj2 (in_assets_In snap s) Hin). simpl.
  destruct (Q500US snap s) eqn:Hu; [|reflexivity]. simpl.
  destruct (Spec.complete snap s) eqn:Hc.
  - destruct (quality_some snap s Hin Hu Hc) as [q Hq]. rewrite Hq. reflexivity.
  - rewrite (quality_none_of_incomplete snap s Hc). reflexivity.
Qed.

Lemma count_top_quality_momentum_exact (snap : Snapshot) (K T W : Z) :
  NoDup (assets snap) ->
  count (Terms.top_quality_momentum snap K T W) (assets snap)
  = Nat.min (Z.to_nat T)
      (count (fun s => Terms.top_quality snap K s
                       && notnull (Returns snap W) s) (assets snap)).
Proof.
  intros Hnd. unfold Terms.top_quality_momentum.
  rewrite count_top_exact by exact Hnd. f_equal.
  apply count_ext_in. intros s Hin.
  unfold notnull, top_data, masked, Terms.momentum.
  rewrite (proj2 (in_assets_In snap s) Hin). simpl.
  destruct (Terms.top_quality snap K s); [|reflexivity]. simpl.
  destruct (Returns snap W s); reflexivity.
Qed.

(** X1. On a snapshot whose columns are distinct assets, the quality
    output has exactly min(TOP_ROE_QTY, number of universe members with all
    four raw values) members, and the momentum output exactly
    min(TARGET_SECURITIES, number of quality members that have a return)
    members. *)
Theorem stage_sizes_exact (snap : Snapshot) (K T W : Z) :
  NoDup (assets snap) -> (0 <= K)%Z -> (0 <= T)%Z ->
  Z.of_nat (length (filter (Terms.top_quality snap K) (assets snap)))
  = Z.min K (Z.of_nat (count (fun s => Q500US snap s && Spec.complete snap s)
                             (assets snap)))
  /\ Z.of_nat (length (filter (Terms.top_quality_momentum snap K T W)
                              (assets snap)))
     = Z.min T (Z.of_nat (count (fun s => Terms.top_quality snap K s
                                          && notnull (Returns snap W) s)
                                (assets snap))).
Proof.
  intros Hnd HK HT.
  pose proof (count_top_quality_exact snap K Hnd) as H1.
  pose proof (count_top_quality_momentum_exact snap K T W Hnd) as H2.
  unfold count in H1 at 1. unfold count in H2 at 1.
  rewrite H1, H2. lia.
Qed.

Lemma stage_sizes_exact_witness :
  Z.of_nat (length (filter (Terms.top_quality Sample.falling_market 50)
                           (assets Sample.falling_market)))
  = Z.min 50 (Z.of_nat (count (fun s => Q500US Sample.falling_market s
                                        && Spec.complete Sample.falling_market s)
                              (assets Sample.falling_market)))
  /\ Z.of_nat (length (filter (Terms.top_quality_momentum
                                 Sample.falling_market 50 5 140)
                              (assets Sample.falling_market)))
     = Z.min 5 (Z.of_nat (count (fun s => Terms.top_quality
                                            Sample.falling_market 50 s
                                          && notnull (Returns
                                                        Sample.falling_market
                                                        140) s)
                                (assets Sample.falling_market))).
Proof.
  apply (stage_sizes_exact Sample.falling_market 50 5 140);
    [distinct_columns | discriminate | discriminate].
Defined.

(** ** What the two stages leave out *)

(** A column that [top N] leaves out, although it is ranked, has a value no
    greater than any column that [top N] passes. *)
Lemma top_best (snap : Snapshot) (N : Z) (f : Factor) (mask : Filter)
    (s t : Security) (a b : Q) :
  top snap N f mask s = true -> top snap N f mask t = false ->
  In t (assets snap) -> mask t = true ->
  f s = Some a -> f t = Some b -> b <= a.
Proof.
  intros Hs Ht Hin Hm Ha Hb.
  destruct (Qlt_le_dec a b) as [Hlt | Hle]; [exfalso | exact Hle].
  pose proof (top_true snap N f mask s Hs) as (Hins & Hms & _).
  assert (Ds : top_data snap f mask s = Some (- a)).
  { unfold top_data, masked.
    rewrite (proj2 (in_assets_In snap s) Hins), Hms, Ha. reflexivity. }
  assert (Dt : top_data snap f mask t = Some (- b)).
  { unfold top_data, masked.
    rewrite (proj2 (in_assets_In snap t) Hin), Hm, Hb. reflexivity. }
  assert (Hbefore : ordinal_before snap (top_data snap f mask) t s = true).
  { apply ordinal_before_spec. exists (- b), (- a).
    repeat split; auto. left. lra. }
  pose proof (predecessors_lt (assets snap)
                (ordinal_before snap (top_data snap f mask))
                (ordinal_before_irrefl snap (top_data snap f mask))
                (ordinal_before_trans snap (top_data snap f mask))
                t s Hin Hbefore) as Hlt'.
  rewrite top_unfold in Hs, Ht.
  apply andb_true_iff in Hs. destruct Hs as [_ Hs]. apply Nat.ltb_lt in Hs.
  unfold notnull in Ht. rewrite Dt in Ht. simpl in Ht.
  apply Nat.ltb_ge in Ht. lia.
Qed.

(** X2. A member of the quality set that has a return and is left out by
    the momentum selector has a return no greater than any security the
    selector keeps. *)
Theorem momentum_selector_keeps_best (snap : Snapshot) (K T W : Z)
    (s t : Security) (rs rt : Q) :
  Terms.top_quality_momentum snap K T W s = true ->
  In t (assets snap) ->
  Terms.top_quality snap K t = true ->
  Terms.top_quality_momentum snap K T W t = false ->
  Returns snap W s = Some rs -> Returns snap W t = Some rt ->
  rt <= rs.
Proof.
  intros Hs Hin Hq Ht Hrs Hrt.
  apply (top_best snap T (Terms.momentum snap W) (Terms.top_quality snap K)
           s t rs rt Hs Ht Hin Hq Hrs Hrt).
Qed.

Lemma momentum_selector_keeps_best_witness :
  Terms.top_quality_momentum Sample.falling_market 50 5 140 "A"%string = true
  /\ Terms.top_quality Sample.falling_market 50 "E"%string = true
  /\ Terms.top_quality_momentum Sample.falling_market 50 5 140 "E"%string = false
  /\ - (1 # 10) <= 1 # 10.
Proof.
  repeat split; try (vm_compute; reflexivity).
  apply (momentum_selector_keeps_best Sample.falling_market 50 5 140
           "A"%string "E"%string (1 # 10) (- (1 # 10)));
    try (vm_compute; reflexivity).
  simpl. tauto.
Defined.

(** X3. A universe member that has a quality score and is left out of the
    quality set has a score no greater than any member of the set. *)
Theorem quality_ranker_keeps_best (snap : Snapshot) (K : Z)
    (s t : Security) (qs qt : Q) :
  Terms.top_quality snap K s = true ->
  In t (assets snap) ->
  Q500US snap t = true ->
  Terms.top_quality snap K t = false ->
  Terms.quality snap s = Some qs -> Terms.quality snap t = Some qt ->
  qt <= qs.
Proof.
  intros Hs Hin Hu Ht Hqs Hqt.
  rewrite top_quality_is_top in Hs, Ht.
  apply (top_best snap K (Terms.quality snap) (Q500US snap)
           s t qs qt Hs Ht Hin Hu Hqs Hqt).
Qed.

Lemma quality_ranker_keeps_best_witness :
  Terms.top_quality Sample.falling_market 3 "C"%string = true
  /\ Terms.top_quality Sample.falling_market 3 "D"%string = false
  /\ Terms.quality Sample.falling_market "C"%string = Some 14
  /\ Terms.quality Sample.falling_market "D"%string = Some 11
  /\ 11 <= 14.
Proof.
  repeat split; try (vm_compute; reflexivity).
  apply (quality_ranker_keeps_best Sample.falling_market 3
           "C"%string "D"%string 14 11);
    try (vm_compute; reflexivity).
  simpl. tauto.
Defined.

(** ** Which stocks can get a weight *)

Lemma top_quality_momentum_eligible (snap : Snapshot) (K T W : Z) (s : Security) :
  Terms.top_quality_momentum snap K T W s = true ->
  In s (assets snap) /\ Q500US snap s = true /\ Spec.complete snap s = true
  /\ exists r, Returns snap W s = Some r.
Proof.
  intros H. apply top_true in H. destruct H as (Hin & Hq & Hr).
  rewrite top_quality_unfold in Hq. apply andb_true_iff in Hq.
  destruct Hq as [Htop Hc]. apply top_true in Htop.
  destruct Htop as (_ & Hu & _). auto.
Qed.

(** X4. In both variants, whatever the trend signal and the holdings, a
    stock gets a weight only if it is an asset of the day, a member of
    [Q500US], has all four raw fundamentals and has a return over
    [MOMENTUM_LOOKBACK_DAYS]. *)
Theorem weighted_stocks_eligible (tcontext : Trend.Context)
    (ncontext : NoTrend.Context) (snap : Snapshot) :
  Trend.TARGET_SECURITIES tcontext <> 0%Z ->
  Trend.BONDS tcontext <> [] ->
  NoTrend.TARGET_SECURITIES ncontext <> 0%Z ->
  (exists context',
      Trend.select_stocks_and_set_weights tcontext
        (Trend.pipeline_output tcontext snap) = Some context'
      /\ forall s, In s (map fst (Trend.stock_weights context')) ->
           In s (assets snap) /\ Q500US snap s = true
           /\ Spec.complete snap s = true
           /\ exists r, Returns snap (Trend.MOMENTUM_LOOKBACK_DAYS tcontext) s
                        = Some r)
  /\ (exists context',
        NoTrend.select_stocks_and_set_weights ncontext
          (NoTrend.pipeline_output ncontext snap) = Some context'
        /\ forall s, In s (map fst (NoTrend.stock_weights context')) ->
             In s (assets snap) /\ Q500US snap s = true
             /\ Spec.complete snap s = true
             /\ exists r, Returns snap (NoTrend.MOMENTUM_LOOKBACK_DAYS ncontext) s
                          = Some r).
Proof.
  intros HT HB HN. split.
  - rewrite Trend_select_unfold by assumption.
    eexists. split; [reflexivity|].
    cbn [Trend.stock_weights Trend.set_bond_weights Trend.set_stock_weights].
    unfold Trend.selected_stock_weights. rewrite Series_scalar_labels.
    intros s Hs. rewrite Trend_stocks_to_hold_unfold in Hs.
    apply filter_In in Hs. destruct Hs as [Hs _].
    apply filter_In in Hs. destruct Hs as [_ Hs].
    apply (top_quality_momentum_eligible _ _ _ _ _ Hs).
  - rewrite NoTrend_select_unfold by assumption.
    eexists. split; [reflexivity|].
    cbn [NoTrend.stock_weights NoTrend.set_stock_weights].
    rewrite Series_scalar_labels.
    intros s Hs. rewrite NoTrend_stocks_to_hold in Hs.
    apply filter_In in Hs. destruct Hs as [_ Hs].
    apply (top_quality_momentum_eligible _ _ _ _ _ Hs).
Qed.

Lemma weighted_stocks_eligible_witness :
  (exists context',
      Trend.select_stocks_and_set_weights Sample.trend_context
        (Trend.pipeline_output Sample.trend_context Sample.falling_market)
      = Some context'
      /\ forall s, In s (map fst (Trend.stock_weights context')) ->
           In s (assets Sample.falling_market)
           /\ Q500US Sample.falling_market s = true
           /\ Spec.complete Sample.falling_market s = true
           /\ exists r, Returns Sample.falling_market
                          (Trend.MOMENTUM_LOOKBACK_DAYS Sample.trend_context) s
                        = Some r)
  /\ (exists context',
        NoTrend.select_stocks_and_set_weights NoTrend.initialize
          (NoTrend.pipeline_output NoTrend.initialize Sample.falling_market)
        = Some context'
        /\ forall s, In s (map fst (NoTrend.stock_weights context')) ->
             In s (assets Sample.falling_market)
             /\ Q500US Sample.falling_market s = true
             /\ Spec.complete Sample.falling_market s = true
             /\ exists r, Returns Sample.falling_market
                            (NoTrend.MOMENTUM_LOOKBACK_DAYS NoTrend.initialize) s
                          = Some r).
Proof.
  apply (weighted_stocks_eligible Sample.trend_context NoTrend.initialize
           Sample.falling_market); discriminate.
Defined.

(** ** The trend variant is always fully invested *)

(** X5. In the trend variant, on a snapshot whose columns are distinct
    assets, with [T > 0] equity slots and [B > 0] bonds, a selection that
    holds [n] stocks stores stock weights that sum to [n / T], gives every
    bond the weight [(T - n) / (T * B)], and so records stock and bond
    totals that add up to 1: what the stocks leave goes to the bonds,
    nothing to cash. *)
Theorem trend_fully_invested (context : Trend.Context) (snap : Snapshot) :
  NoDup (assets snap) ->
  (0 < Trend.TARGET_SECURITIES context)%Z ->
  Trend.BONDS context <> [] ->
  exists context',
    Trend.select_stocks_and_set_weights context
      (Trend.pipeline_output context snap) = Some context'
    /\ let n := inject_Z (Z.of_nat (length (Trend.stock_weights context'))) in
       let T := inject_Z (Trend.TARGET_SECURITIES context) in
       let B := inject_Z (Z.of_nat (length (Trend.BONDS context))) in
       fst (Trend_record context') == n / T
       /\ (forall b w, In (b, w) (Trend.bond_weights context') ->
                       w == (T - n) / (T * B))
       /\ fst (Trend_record context') + snd (Trend_record context') == 1
       /\ Series_sum (objective (Trend.trade context')) == 1.
Proof.
  intros Hnd HT HB.
  rewrite Trend_select_unfold by (auto; lia).
  eexists. split; [reflexivity|].
  unfold Trend_record, Trend.trade, Trend.total_weights.
  cbn [Trend.stock_weights Trend.bond_weights Trend.set_bond_weights
       Trend.set_stock_weights objective fst snd].
  set (df := Trend.pipeline_output context snap).
  destruct (equal_slots (Trend.stocks_to_hold context df)
              (Trend.TARGET_SECURITIES context) HT
              (Trend_stocks_to_hold_length context snap Hnd))
    as (Hw & HS).
  fold (Trend.selected_stock_weights context df) in HS.
  destruct (basket_split (Trend.BONDS context)
              (Series_sum (Trend.selected_stock_weights context df)) HB HS)
    as (Hb & Hsum).
  fold (Trend.selected_bond_weights context df) in Hsum.
  assert (Ht : ~ inject_Z (Trend.TARGET_SECURITIES context) == 0).
  { assert (0 < inject_Z (Trend.TARGET_SECURITIES context))
      by (change 0 with (inject_Z 0); rewrite <- Zlt_Qlt; exact HT).
    lra. }
  assert (HB' : ~ inject_Z (Z.of_nat (length (Trend.BONDS context))) == 0).
  { assert (0 < inject_Z (Z.of_nat (length (Trend.BONDS context)))).
    { change 0 with (inject_Z 0). rewrite <- Zlt_Qlt.
      destruct (Trend.BONDS context); [contradiction | simpl; lia]. }
    lra. }
  assert (Hlen : length (Trend.selected_stock_weights context df)
                 = length (Trend.stocks_to_hold context df))
    by (unfold Trend.selected_stock_weights, Series_scalar; apply length_map).
  assert (HSn : Series_sum (Trend.selected_stock_weights context df)
                == inject_Z (Z.of_nat (length (Trend.stocks_to_hold context df)))
                   / inject_Z (Trend.TARGET_SECURITIES context)).
  { unfold Trend.selected_stock_weights. rewrite Series_sum_scalar.
    field. exact Ht. }
  rewrite Hlen.
  split; [exact HSn|]. split; [|split].
  - intros b w Hin. apply Series_scalar_In in Hin. destruct Hin as [_ ->].
    unfold Trend.selected_bond_weights in *.
    assert (Hmax : py_max (1 - Series_sum (Trend.selected_stock_weights context df)) 0
                   == 1 - Series_sum (Trend.selected_stock_weights context df)).
    { rewrite py_max_Qmax. apply Q.max_l. lra. }
    rewrite Hmax, HSn. field. split; assumption.
  - rewrite Hsum. ring.
  - rewrite Series_sum_app, Hsum. ring.
Qed.

Lemma trend_fully_invested_witness :
  NoDup (assets Sample.falling_market)
  /\ exists context',
       Trend.select_stocks_and_set_weights Sample.trend_context
         (Trend.pipeline_output Sample.trend_context Sample.falling_market)
       = Some context'
       /\ let n := inject_Z (Z.of_nat (length (Trend.stock_weights context'))) in
          let T := inject_Z (Trend.TARGET_SECURITIES Sample.trend_context) in
          let B := inject_Z (Z.of_nat (length (Trend.BONDS Sample.trend_context))) in
          fst (Trend_record context') == n / T
          /\ (forall b w, In (b, w) (Trend.bond_weights context') ->
                          w == (T - n) / (T * B))
          /\ fst (Trend_record context') + snd (Trend_record context') == 1
          /\ Series_sum (objective (Trend.trade context')) == 1.
Proof.
  assert (Hnd : NoDup (assets Sample.falling_market)) by distinct_columns.
  split; [exact Hnd|].
  apply (trend_fully_invested Sample.trend_context Sample.falling_market Hnd);
    [reflexivity | discriminate].
Defined.

(** ** The order that [trade] submits *)







(** X7. The labels of the target weights are distinct, so that no asset is
    given two targets: in the variant without the trend filter whenever the
    columns of the snapshot are distinct assets, and in the trend variant
    when moreover the bonds are distinct and none of them is a member of
    [Q500US]. *)
Theorem order_labels_distinct (tcontext : Trend.Context)
    (ncontext : NoTrend.Context) (snap : Snapshot) :
  NoDup (assets snap) ->
  Trend.TARGET_SECURITIES tcontext <> 0%Z ->
  Trend.BONDS tcontext <> [] ->
  NoDup (Trend.BONDS tcontext) ->
  (forall b, In b (Trend.BONDS tcontext) -> Q500US snap b = false) ->
  NoTrend.TARGET_SECURITIES ncontext <> 0%Z ->
  (exists context' order,
      Trend.rebalance tcontext snap = Some (context', order)
      /\ NoDup (map fst (objective order)))
  /\ (exists context' order,
        NoTrend.rebalance ncontext snap = Some (context', order)
        /\ NoDup (map fst (objective order))).
Proof.
  intros Hnd HT HB HBd HBu HN. split.
  - unfold Trend.rebalance. rewrite Trend_select_unfold by assumption.
    do 2 eexists. split; [reflexivity|].
    unfold Trend.trade, Trend.total_weights.
    cbn [objective Trend.stock_weights Trend.bond_weights
         Trend.set_bond_weights Trend.set_stock_weights].
    rewrite map_app.
    unfold Trend.selected_stock_weights, Trend.selected_bond_weights.
    rewrite !Series_scalar_labels.
    apply NoDup_app.
    + rewrite Trend_stocks_to_hold_unfold.
      apply NoDup_filter, NoDup_filter, Hnd.
    + exact HBd.
    + intros s Hs Hb. rewrite Trend_stocks_to_hold_unfold in Hs.
      apply filter_In in Hs. destruct Hs as [Hs _].
      apply filter_In in Hs. destruct Hs as [_ Hs].
      apply top_quality_momentum_eligible in Hs.
      destruct Hs as (_ & Hu & _). rewrite (HBu s Hb) in Hu. discriminate.
  - unfold NoTrend.rebalance. rewrite NoTrend_select_unfold by assumption.
    do 2 eexists. split; [reflexivity|].
    unfold NoTrend.trade.
    cbn [objective NoTrend.stock_weights NoTrend.set_stock_weights].
    rewrite Series_scalar_labels, NoTrend_stocks_to_hold.
    apply NoDup_filter, Hnd.
Qed.

Lemma order_labels_distinct_witness :
  NoDup (assets Sample.rising_market)
  /\ NoDup (Trend.BONDS Sample.trend_context)
  /\ (forall b, In b (Trend.BONDS Sample.trend_context) ->
                Q500US Sample.rising_market b = false)
  /\ (exists context' order,
         Trend.rebalance Sample.trend_context Sample.rising_market
         = Some (context', order)
         /\ NoDup (map fst (objective order)))
  /\ (exists context' order,
         NoTrend.rebalance NoTrend.initialize Sample.rising_market
         = Some (context', order)
         /\ NoDup (map fst (objective order))).
Proof.
  assert (Hnd : NoDup (assets Sample.rising_market)) by distinct_columns.
  assert (Hbd : NoDup (Trend.BONDS Sample.trend_context)) by distinct_columns.
  assert (Hbu : forall b, In b (Trend.BONDS Sample.trend_context) ->
                          Q500US Sample.rising_market b = false).
  { intros b [<- | [<- | []]]; reflexivity. }
  split; [exact Hnd|]. split; [exact Hbd|]. split; [exact Hbu|].
  apply (order_labels_distinct Sample.trend_context NoTrend.initialize
           Sample.rising_market Hnd); try discriminate; assumption.
Defined.

(** ** The two variants side by side *)

(** X8. With the same equity slots, quality shortlist and momentum
    lookback, every stock weight of the trend variant is a stock weight of
    the variant without the trend filter, and under a true trend signal the
    two variants store the same stock weights: the trend filter only ever
    removes stocks. *)
Theorem trend_filter_only_removes (tcontext : Trend.Context)
    (ncontext : NoTrend.Context) (snap : Snapshot) :
  Trend.TARGET_SECURITIES tcontext = NoTrend.TARGET_SECURITIES ncontext ->
  Trend.TOP_ROE_QTY tcontext = NoTrend.TOP_ROE_QTY ncontext ->
  Trend.MOMENTUM_LOOKBACK_DAYS tcontext = NoTrend.MOMENTUM_LOOKBACK_DAYS ncontext ->
  Trend.TARGET_SECURITIES tcontext <> 0%Z ->
  Trend.BONDS tcontext <> [] ->
  exists tcontext' ncontext',
    Trend.select_stocks_and_set_weights tcontext
      (Trend.pipeline_output tcontext snap) = Some tcontext'
    /\ NoTrend.select_stocks_and_set_weights ncontext
         (NoTrend.pipeline_output ncontext snap) = Some ncontext'
    /\ incl (Trend.stock_weights tcontext') (NoTrend.stock_weights ncontext')
    /\ (Trend.TrendSignal tcontext snap = true ->
        Trend.stock_weights tcontext' = NoTrend.stock_weights ncontext').
Proof.
  intros ET EK EW HT HB.
  rewrite Trend_select_unfold by assumption.
  rewrite NoTrend_select_unfold by congruence.
  do 2 eexists. split; [reflexivity|]. split; [reflexivity|].
  cbn [Trend.stock_weights Trend.set_bond_weights Trend.set_stock_weights
       NoTrend.stock_weights NoTrend.set_stock_weights].
  unfold Trend.selected_stock_weights.
  rewrite Trend_stocks_to_hold_unfold, NoTrend_stocks_to_hold.
  assert (Hsame : forall s, Trend.top_quality_momentum tcontext snap s
                            = NoTrend.top_quality_momentum ncontext snap s).
  { intros s. unfold Trend.top_quality_momentum, NoTrend.top_quality_momentum.
    rewrite ET, EK, EW. reflexivity. }
  rewrite (filter_ext _ _ Hsame (assets snap)). rewrite ET. split.
  - intros [s w] Hin. apply Series_scalar_In in Hin. destruct Hin as [Hs ->].
    apply Series_scalar_In. split; [|reflexivity].
    apply filter_In in Hs. tauto.
  - intros Hup. rewrite Hup. simpl orb. rewrite filter_true. reflexivity.
Qed.

Lemma trend_filter_only_removes_witness :
  Trend.TrendSignal Sample.trend_context Sample.rising_market = true
  /\ exists tcontext' ncontext',
       Trend.select_stocks_and_set_weights Sample.trend_context
         (Trend.pipeline_output Sample.trend_context Sample.rising_market)
       = Some tcontext'
       /\ NoTrend.select_stocks_and_set_weights Sample2.no_trend_shortlist_50
            (NoTrend.pipeline_output Sample2.no_trend_shortlist_50
               Sample.rising_market) = Some ncontext'
       /\ incl (Trend.stock_weights tcontext') (NoTrend.stock_weights ncontext')
       /\ (Trend.TrendSignal Sample.trend_context Sample.rising_market = true ->
           Trend.stock_weights tcontext' = NoTrend.stock_weights ncontext').
Proof.
  split; [reflexivity|].
  apply (trend_filter_only_removes Sample.trend_context
           Sample2.no_trend_shortlist_50 Sample.rising_market);
    try reflexivity; discriminate.
Defined.

(** ** The scheduled cycles *)







(** ** A cycle does not remember the cycles before it *)

Lemma Trend_rebalance_constants (context context0 : Trend.Context)
    (positions : list Security) (snap : Snapshot) :
  Trend_constants context = Trend_constants context0 ->
  Trend.rebalance (Trend.set_portfolio_positions context positions) snap
  = Trend.rebalance (Trend.set_portfolio_positions context0 positions) snap.
Proof.
  destruct context, context0. unfold Trend_constants. simpl.
  intros H. inversion H. subst. reflexivity.
Qed.

Lemma NoTrend_rebalance_constants (context context0 : NoTrend.Context)
    (snap : Snapshot) :
  NoTrend_constants context = NoTrend_constants context0 ->
  NoTrend.rebalance context snap = NoTrend.rebalance context0 snap.
Proof.
  destruct context, context0. unfold NoTrend_constants. simpl.
  intros H. inversion H. subst. reflexivity.
Qed.

Lemma Trend_rebalance_completes (context : Trend.Context)
    (positions : list Security) (snap : Snapshot) :
  Trend.TARGET_SECURITIES context <> 0%Z ->
  Trend.BONDS context <> [] ->
  exists context' order,
    Trend.rebalance (Trend.set_portfolio_positions context positions) snap
    = Some (context', order)
    /\ Trend_constants context' = Trend_constants context.
Proof.
  intros HT HB. unfold Trend.rebalance.
  rewrite Trend_select_unfold by assumption.
  do 2 eexists. split; reflexivity.
Qed.

Lemma NoTrend_rebalance_completes (context : NoTrend.Context) (snap : Snapshot) :
  NoTrend.TARGET_SECURITIES context <> 0%Z ->
  exists context' order,
    NoTrend.rebalance context snap = Some (context', order)
    /\ NoTrend_constants context' = NoTrend_constants context.
Proof.
  intros HT. unfold NoTrend.rebalance.
  rewrite NoTrend_select_unfold by assumption.
  do 2 eexists. split; reflexivity.
Qed.

Lemma Trend_run_last (days : list Day) (day : Day) :
  forall context context0,
    Trend_constants context = Trend_constants context0 ->
    Trend.TARGET_SECURITIES context0 <> 0%Z ->
    Trend.BONDS context0 <> [] ->
    exists final order earlier,
      Trend_run context (days ++ [day]) = Some (final, earlier ++ [order])
      /\ length earlier = length days
      /\ Trend_run context0 [day] = Some (final, [order]).
Proof.
  induction days as [|d rest IH]; intros context context0 Hk HT HB.
  - destruct (Trend_rebalance_completes context0 (positions_at_open day)
                (snapshot day) HT HB) as (c & o & Hc & _).
    exists c, o, []. cbn [app Trend_run].
    rewrite (Trend_rebalance_constants context context0 _ _ Hk), Hc.
    repeat split.
  - assert (HT' : Trend.TARGET_SECURITIES context <> 0%Z).
    { unfold Trend_constants in Hk. inversion Hk. congruence. }
    assert (HB' : Trend.BONDS context <> []).
    { unfold Trend_constants in Hk. inversion Hk. congruence. }
    destruct (Trend_rebalance_completes context (positions_at_open d)
                (snapshot d) HT' HB') as (c & o & Hc & Hkc).
    destruct (IH c context0 (eq_trans Hkc Hk) HT HB)
      as (final & order & earlier & Hrun & Hlen & Hlast).
    exists final, order, (o :: earlier).
    cbn [app Trend_run]. rewrite Hc. cbn [fst snd]. rewrite Hrun.
    cbn [fst snd app length]. repeat split; [congruence | exact Hlast].
Qed.

Lemma NoTrend_run_last (days : list Snapshot) (day : Snapshot) :
  forall context context0,
    NoTrend_constants context = NoTrend_constants context0 ->
    NoTrend.TARGET_SECURITIES context0 <> 0%Z ->
    exists final order earlier,
      NoTrend_run context (days ++ [day]) = Some (final, earlier ++ [order])
      /\ length earlier = length days
      /\ NoTrend_run context0 [day] = Some (final, [order]).
Proof.
  induction days as [|d rest IH]; intros context context0 Hk HT.
  - destruct (NoTrend_rebalance_completes context0 day HT) as (c & o & Hc & _).
    exists c, o, []. cbn [app NoTrend_run].
    rewrite (NoTrend_rebalance_constants context context0 _ Hk), Hc.
    repeat split.
  - assert (HT' : NoTrend.TARGET_SECURITIES context <> 0%Z).
    { unfold NoTrend_constants in Hk. inversion Hk. congruence. }
    destruct (NoTrend_rebalance_completes context d HT') as (c & o & Hc & Hkc).
    destruct (IH c context0 (eq_trans Hkc Hk) HT)
      as (final & order & earlier & Hrun & Hlen & Hlast).
    exists final, order, (o :: earlier).
    cbn [app NoTrend_run]. rewrite Hc. cbn [fst snd]. rewrite Hrun.
    cbn [fst snd app length]. repeat split; [congruence | exact Hlast].
Qed.

(** X10. In both variants, the context and the order that the last day of
    a run leaves are those of a run of that day alone: the weights of a
    cycle depend on the constants, on the positions at the open and on the
    data of the day, and on nothing that earlier cycles stored. *)
Theorem last_cycle_forgets_the_past (tcontext : Trend.Context)
    (ncontext : NoTrend.Context) (tdays : list Day) (tday : Day)
    (ndays : list Snapshot) (nday : Snapshot) :
  Trend.TARGET_SECURITIES tcontext <> 0%Z ->
  Trend.BONDS tcontext <> [] ->
  NoTrend.TARGET_SECURITIES ncontext <> 0%Z ->
  (exists final order earlier,
      Trend_run tcontext (tdays ++ [tday]) = Some (final, earlier ++ [order])
      /\ length earlier = length tdays
      /\ Trend_run tcontext [tday] = Some (final, [order]))
  /\ (exists final order earlier,
        NoTrend_run ncontext (ndays ++ [nday]) = Some (final, earlier ++ [order])
        /\ length earlier = length ndays
        /\ NoTrend_run ncontext [nday] = Some (final, [order])).
Proof.
  intros HT HB HN. split.
  - apply Trend_run_last; auto.
  - apply NoTrend_run_last; auto.
Qed.

Lemma last_cycle_forgets_the_past_witness :
  (exists final order earlier,
      Trend_run Sample.trend_context
        (Sample2.three_days
         ++ [{| positions_at_open := ["C"]%string;
                snapshot := Sample.falling_market |}])
      = Some (final, earlier ++ [order])
      /\ length earlier = length Sample2.three_days
      /\ Trend_run Sample.trend_context
           [{| positions_at_open := ["C"]%string;
               snapshot := Sample.falling_market |}]
         = Some (final, [order]))
  /\ (exists final order earlier,
        NoTrend_run NoTrend.initialize
          ([Sample.rising_market; Sample.thin_market] ++ [Sample.falling_market])
        = Some (final, earlier ++ [order])
        /\ length earlier = length [Sample.rising_market; Sample.thin_market]
        /\ NoTrend_run NoTrend.initialize [Sample.falling_market]
           = Some (final, [order])).
Proof.
  apply (last_cycle_forgets_the_past Sample.trend_context NoTrend.initialize
           Sample2.three_days
           {| positions_at_open := ["C"]%string;
              snapshot := Sample.falling_market |}
           [Sample.rising_market; Sample.thin_market] Sample.falling_market);
    discriminate.
Defined.

(** ** A benchmark that does not move *)








(** ** How many slots are filled *)

(** X12. In the variant without the trend filter, on a snapshot whose
    columns are distinct assets and with [T > 0] equity slots, the stocks
    held are min(T, m) in number, [m] being the number of quality members
    that have a return, and their weights sum to min(T, m) / T: when fewer
    than [T] candidates exist the rest of the budget is given to nobody. *)
Theorem no_trend_slots_filled (context : NoTrend.Context) (snap : Snapshot) :
  NoDup (assets snap) ->
  (0 < NoTrend.TARGET_SECURITIES context)%Z ->
  let T := NoTrend.TARGET_SECURITIES context in
  let m := Z.of_nat
             (count (fun s => NoTrend.top_quality context snap s
                              && notnull (Returns snap
                                            (NoTrend.MOMENTUM_LOOKBACK_DAYS context))
                                         s)
                    (assets snap)) in
  exists context',
    NoTrend.select_stocks_and_set_weights context
      (NoTrend.pipeline_output context snap) = Some context'
    /\ Z.of_nat (length (NoTrend.stock_weights context')) = Z.min T m
    /\ Series_sum (NoTrend.stock_weights context')
       == inject_Z (Z.min T m) / inject_Z T.
Proof.
  intros Hnd HT T m.
  rewrite NoTrend_select_unfold by lia.
  eexists. split; [reflexivity|].
  cbn [NoTrend.stock_weights NoTrend.set_stock_weights].
  assert (Hlen : Z.of_nat (length (NoTrend.stocks_to_hold
                                     (NoTrend.pipeline_output context snap)))
                 = Z.min T m).
  { rewrite NoTrend_stocks_to_hold.
    pose proof (count_top_quality_momentum_exact snap
                  (NoTrend.TOP_ROE_QTY context) (NoTrend.TARGET_SECURITIES context)
                  (NoTrend.MOMENTUM_LOOKBACK_DAYS context) Hnd) as H.
    unfold count in H at 1. unfold NoTrend.top_quality_momentum.
    rewrite H. unfold m, T, NoTrend.top_quality. lia. }
  split.
  - unfold Series_scalar. rewrite length_map. exact Hlen.
  - rewrite Series_sum_scalar, Hlen. fold T. field.
    assert (0 < inject_Z T)
      by (change 0 with (inject_Z 0); rewrite <- Zlt_Qlt; exact HT).
    lra.
Qed.

Lemma no_trend_slots_filled_witness :
  NoDup (assets Sample.thin_market)
  /\ exists context',
       NoTrend.select_stocks_and_set_weights NoTrend.initialize
         (NoTrend.pipeline_output NoTrend.initialize Sample.thin_market)
       = Some context'
       /\ Z.of_nat (length (NoTrend.stock_weights context')) = 3%Z
       /\ Series_sum (NoTrend.stock_weights context') == 3 # 5.
Proof.
  assert (Hnd : NoDup (assets Sample.thin_market)) by distinct_columns.
  split; [exact Hnd|].
  destruct (no_trend_slots_filled NoTrend.initialize Sample.thin_market Hnd)
    as (c & Hsel & Hlen & Hsum); [reflexivity|].
  exists c. split; [exact Hsel|]. split.
  - rewrite Hlen. vm_compute. reflexivity.
  - rewrite Hsum. vm_compute. reflexivity.
Defined.

(** X13. In the trend variant, under a true trend signal and with at least
    [T] quality members that have a return, all [T] equity slots are
    filled, and every bond still gets a row, of weight zero. *)
Theorem uptrend_fills_every_slot (context : Trend.Context) (snap : Snapshot) :
  NoDup (assets snap) ->
  (0 < Trend.TARGET_SECURITIES context)%Z ->
  Trend.BONDS context <> [] ->
  Trend.TrendSignal context snap = true ->
  (Trend.TARGET_SECURITIES context
   <= Z.of_nat (count (fun s => Trend.top_quality context snap s
                                && notnull (Returns snap
                                              (Trend.MOMENTUM_LOOKBACK_DAYS context))
                                           s)
                      (assets snap)))%Z ->
  exists context',
    Trend.select_stocks_and_set_weights context
      (Trend.pipeline_output context snap) = Some context'
    /\ Z.of_nat (length (Trend.stock_weights context'))
       = Trend.TARGET_SECURITIES context
    /\ map fst (Trend.bond_weights context') = Trend.BONDS context
    /\ forall b w, In (b, w) (Trend.bond_weights context') -> w == 0.
Proof.
  intros Hnd HT HB Hup Hm.
  rewrite Trend_select_unfold by (auto; lia).
  eexists. split; [reflexivity|].
  cbn [Trend.stock_weights Trend.bond_weights Trend.set_bond_weights
       Trend.set_stock_weights].
  set (df := Trend.pipeline_output context snap).
  assert (Hlen : Z.of_nat (length (Trend.stocks_to_hold context df))
                 = Trend.TARGET_SECURITIES context).
  { unfold df. rewrite Trend_stocks_to_hold_unfold, Hup. simpl orb.
    rewrite filter_true.
    pose proof (count_top_quality_momentum_exact snap
                  (Trend.TOP_ROE_QTY context) (Trend.TARGET_SECURITIES context)
                  (Trend.MOMENTUM_LOOKBACK_DAYS context) Hnd) as H.
    unfold count in H at 1. unfold Trend.top_quality_momentum.
    rewrite H. unfold Trend.top_quality in Hm. lia. }
  assert (HtQ : 0 < inject_Z (Trend.TARGET_SECURITIES context))
    by (change 0 with (inject_Z 0); rewrite <- Zlt_Qlt; exact HT).
  assert (HS : Series_sum (Trend.selected_stock_weights context df) == 1).
  { unfold Trend.selected_stock_weights. rewrite Series_sum_scalar, Hlen.
    field. lra. }
  split; [|split].
  - unfold Trend.selected_stock_weights, Series_scalar. rewrite length_map.
    exact Hlen.
  - apply Series_scalar_labels.
  - intros b w Hin. apply Series_scalar_In in Hin. destruct Hin as [_ ->].
    assert (Hmax : py_max (1 - Series_sum (Trend.selected_stock_weights context df)) 0
                   == 0).
    { rewrite py_max_Qmax, Q.max_l by lra. lra. }
    rewrite Hmax. unfold Qdiv. ring.
Qed.

Lemma uptrend_fills_every_slot_witness :
  NoDup (assets Sample.rising_market)
  /\ Trend.TrendSignal Sample.trend_context Sample.rising_market = true
  /\ exists context',
       Trend.select_stocks_and_set_weights Sample.trend_context
         (Trend.pipeline_output Sample.trend_context Sample.rising_market)
       = Some context'
       /\ Z.of_nat (length (Trend.stock_weights context'))
          = Trend.TARGET_SECURITIES Sample.trend_context
       /\ map fst (Trend.bond_weights context')
          = Trend.BONDS Sample.trend_context
       /\ forall b w, In (b, w) (Trend.bond_weights context') -> w == 0.
Proof.
  assert (Hnd : NoDup (assets Sample.rising_market)) by distinct_columns.
  split; [exact Hnd|]. split; [reflexivity|].
  apply (uptrend_fills_every_slot Sample.trend_context Sample.rising_market Hnd);
    [reflexivity | discriminate | reflexivity | vm_compute; discriminate].
Defined.

(** ** The quality score respects dominance *)

(** Among ranked columns a greater value has a greater rank. *)
Lemma rank_lt_of_lt (snap : Snapshot) (f : Factor) (mask : Filter)
    (t s : Security) (a b rt rs : Q) :
  rank snap f mask t = Some rt -> rank snap f mask s = Some rs ->
  f t = Some a -> f s = Some b -> a < b -> rt < rs.
Proof.
  intros Ht Hs Ha Hb Hlt.
  destruct (rank_by_some snap true f mask t rt Ht) as (Hint & Hmt & _).
  destruct (rank_by_some snap true f mask s rs Hs) as (Hins & Hms & _).
  unfold rank, rank_by in Ht, Hs.
  assert (Dt : masked snap f mask t = Some a).
  { unfold masked. rewrite (proj2 (in_assets_In snap t) Hint), Hmt. exact Ha. }
  assert (Ds : masked snap f mask s = Some b).
  { unfold masked. rewrite (proj2 (in_assets_In snap s) Hins), Hms. exact Hb. }
  rewrite Dt in Ht. rewrite Ds in Hs.
  inversion Ht; subst rt. inversion Hs; subst rs.
  assert (Hbefore : ordinal_before snap (masked snap f mask) t s = true).
  { apply ordinal_before_spec. exists a, b. auto. }
  pose proof (predecessors_lt (assets snap)
                (ordinal_before snap (masked snap f mask))
                (ordinal_before_irrefl snap (masked snap f mask))
                (ordinal_before_trans snap (masked snap f mask))
                t s Hint Hbefore) as Hp.
  rewrite <- Zlt_Qlt. lia.
Qed.

(** X14. Of two universe members with all four raw values, one that has
    the greater cash return, the greater free-cash-flow yield, the greater
    return on invested capital and the greater revenue growth has the
    greater quality score. *)
Theorem quality_respects_dominance (snap : Snapshot) (s t : Security)
    (cs ct ys yt rs rt gs gt : Q) :
  In s (assets snap) -> In t (assets snap) ->
  Q500US snap s = true -> Q500US snap t = true ->
  ms_cash_return snap s = Some cs -> ms_cash_return snap t = Some ct ->
  ms_fcf_yield snap s = Some ys -> ms_fcf_yield snap t = Some yt ->
  ms_roic snap s = Some rs -> ms_roic snap t = Some rt ->
  ms_revenue_growth snap s = Some gs -> ms_revenue_growth snap t = Some gt ->
  ct < cs -> yt < ys -> rt < rs -> gt < gs ->
  exists qs qt,
    Terms.quality snap s = Some qs /\ Terms.quality snap t = Some qt /\ qt < qs.
Proof.
  intros Hs Ht Us Ut Cs Ct Ys Yt Rs Rt Gs Gt Hc Hy Hr Hg.
  destruct (rank_some snap _ _ s cs Hs Us Cs) as [rcs Hrcs].
  destruct (rank_some snap _ _ t ct Ht Ut Ct) as [rct Hrct].
  destruct (rank_some snap _ _ s ys Hs Us Ys) as [rys Hrys].
  destruct (rank_some snap _ _ t yt Ht Ut Yt) as [ryt Hryt].
  destruct (rank_some snap _ _ s rs Hs Us Rs) as [rrs Hrrs].
  destruct (rank_some snap _ _ t rt Ht Ut Rt) as [rrt Hrrt].
  destruct (rank_some snap _ _ s gs Hs Us Gs) as [rgs Hrgs].
  destruct (rank_some snap _ _ t gt Ht Ut Gt) as [rgt Hrgt].
  pose proof (rank_lt_of_lt snap _ _ t s ct cs rct rcs Hrct Hrcs Ct Cs Hc) as Lc.
  pose proof (rank_lt_of_lt snap _ _ t s yt ys ryt rys Hryt Hrys Yt Ys Hy) as Ly.
  pose proof (rank_lt_of_lt snap _ _ t s rt rs rrt rrs Hrrt Hrrs Rt Rs Hr) as Lr.
  pose proof (rank_lt_of_lt snap _ _ t s gt gs rgt rgs Hrgt Hrgs Gt Gs Hg) as Lg.
  assert (Sums : (Terms.cash_return snap + Terms.fcf_yield snap)%pipe s
                 = Some (rcs + rys)).
  { unfold factor_add, Terms.cash_return, Terms.fcf_yield,
           Terms.cash_return_latest, Terms.fcf_yield_latest, Terms.universe.
    rewrite Hrcs, Hrys. reflexivity. }
  assert (Sumt : (Terms.cash_return snap + Terms.fcf_yield snap)%pipe t
                 = Some (rct + ryt)).
  { unfold factor_add, Terms.cash_return, Terms.fcf_yield,
           Terms.cash_return_latest, Terms.fcf_yield_latest, Terms.universe.
    rewrite Hrct, Hryt. reflexivity. }
  destruct (rank_some snap _ (Q500US snap) s _ Hs Us Sums) as [rvs Hrvs].
  destruct (rank_some snap _ (Q500US snap) t _ Ht Ut Sumt) as [rvt Hrvt].
  assert (Lv : rvt < rvs).
  { apply (rank_lt_of_lt snap _ _ t s _ _ rvt rvs Hrvt Hrvs Sumt Sums). lra. }
  exists (rvs + rrs + rgs), (rvt + rrt + rgt).
  assert (Qs : Terms.quality snap s = Some (rvs + rrs + rgs)).
  { unfold Terms.quality, factor_add.
    change (Terms.value snap s) with
      (rank snap (Terms.cash_return snap + Terms.fcf_yield snap)%pipe
         (Q500US snap) s).
    rewrite Hrvs.
    change (Terms.roic snap s) with (rank snap (ms_roic snap) (Q500US snap) s).
    rewrite Hrrs.
    change (Terms.rev_growth snap s)
      with (rank snap (ms_revenue_growth snap) (Q500US snap) s).
    rewrite Hrgs. reflexivity. }
  assert (Qt : Terms.quality snap t = Some (rvt + rrt + rgt)).
  { unfold Terms.quality, factor_add.
    change (Terms.value snap t) with
      (rank snap (Terms.cash_return snap + Terms.fcf_yield snap)%pipe
         (Q500US snap) t).
    rewrite Hrvt.
    change (Terms.roic snap t) with (rank snap (ms_roic snap) (Q500US snap) t).
    rewrite Hrrt.
    change (Terms.rev_growth snap t)
      with (rank snap (ms_revenue_growth snap) (Q500US snap) t).
    rewrite Hrgt. reflexivity. }
  split; [exact Qs|]. split; [exact Qt|]. lra.
Qed.

Lemma quality_respects_dominance_witness :
  exists qs qt,
    Terms.quality Sample.falling_market "A"%string = Some qs
    /\ Terms.quality Sample.falling_market "B"%string = Some qt
    /\ qt < qs.
Proof.
  apply (quality_respects_dominance Sample.falling_market
           "A"%string "B"%string 7 6 7 6 7 6 7 6);
    try reflexivity; simpl; tauto.
Defined.

(** ** What a cycle reads *)

(** X15. In the trend variant the holdings count through membership only:
    two contexts that differ in the positions, with the same securities
    among them (in any order, any number of times), give the same
    selection on the same frame. *)
Theorem holdings_count_by_membership (context : Trend.Context)
    (positions1 positions2 : list Security) (df : Trend.DataFrame) :
  (forall s, In s positions1 <-> In s positions2) ->
  option_map Trend.total_weights
    (Trend.select_stocks_and_set_weights
       (Trend.set_portfolio_positions context positions1) df)
  = option_map Trend.total_weights
      (Trend.select_stocks_and_set_weights
         (Trend.set_portfolio_positions context positions2) df).
Proof.
  intros Hsame.
  assert (Hhold : Trend.stocks_to_hold
                    (Trend.set_portfolio_positions context positions1) df
                  = Trend.stocks_to_hold
                      (Trend.set_portfolio_positions context positions2) df).
  { unfold Trend.stocks_to_hold. f_equal. apply filter_ext. intros row.
    unfold Trend.rule. cbn [Trend.portfolio_positions Trend.set_portfolio_positions].
    assert (Hisin : isin (Trend.index row) positions1
                    = isin (Trend.index row) positions2).
    { destruct (isin (Trend.index row) positions1) eqn:E1;
        destruct (isin (Trend.index row) positions2) eqn:E2; try reflexivity.
      - apply isin_In, Hsame, isin_In in E1. congruence.
      - apply isin_In, Hsame, isin_In in E2. congruence. }
    rewrite Hisin. reflexivity. }
  unfold Trend.select_stocks_and_set_weights.
  cbn [Trend.TARGET_SECURITIES Trend.set_portfolio_positions].
  destruct (true_div 1 (Trend.TARGET_SECURITIES context)) as [w|]; [|reflexivity].
  rewrite Hhold.
  cbn [Trend.BONDS Trend.stock_weights Trend.set_stock_weights
       Trend.set_portfolio_positions].
  destruct (true_div _ _) as [bw|]; reflexivity.
Qed.

Lemma holdings_count_by_membership_witness :
  option_map Trend.total_weights
    (Trend.select_stocks_and_set_weights
       (Trend.set_portfolio_positions Sample.trend_context
          ["C"; "G"]%string)
       (Trend.pipeline_output Sample.trend_context Sample.falling_market))
  = option_map Trend.total_weights
      (Trend.select_stocks_and_set_weights
         (Trend.set_portfolio_positions Sample.trend_context
            ["G"; "C"; "G"]%string)
         (Trend.pipeline_output Sample.trend_context Sample.falling_market)).
Proof.
  apply (holdings_count_by_membership Sample.trend_context
           ["C"; "G"]%string ["G"; "C"; "G"]%string).
  intros s. simpl. tauto.
Defined.

Section Agreement.
Variables snap1 snap2 : Snapshot.
Hypothesis same_assets : assets snap1 = assets snap2.

Lemma in_assets_agree (s : Security) : in_assets snap1 s = in_assets snap2 s.
Proof. unfold in_assets. rewrite same_assets. reflexivity. Qed.

(** A rank reads its factor where its mask holds, and nowhere else. *)
Lemma rank_by_agree (ascending : bool) (f1 f2 : Factor) (m1 m2 : Filter) :
  (forall s, In s (assets snap1) -> m1 s = m2 s) ->
  (forall s, In s (assets snap1) -> m1 s = true -> f1 s = f2 s) ->
  forall s, rank_by snap1 ascending f1 m1 s = rank_by snap2 ascending f2 m2 s.
Proof.
  intros Hm Hf s. unfold rank_by.
  set (d1 := masked snap1 _ m1). set (d2 := masked snap2 _ m2).
  assert (Hd : forall x, d1 x = d2 x).
  { intros x. unfold d1, d2, masked. rewrite <- in_assets_agree.
    destruct (in_assets snap1 x) eqn:Ha; [|reflexivity].
    apply in_assets_In in Ha. simpl. rewrite <- (Hm x Ha).
    destruct (m1 x) eqn:Hmx; [|reflexivity].
    destruct ascending; [apply Hf; assumption|].
    rewrite (Hf x Ha Hmx). reflexivity. }
  rewrite Hd. destruct (d2 s); [|reflexivity].
  unfold predecessors. rewrite <- same_assets.
  rewrite (count_ext_in _ (fun t => ordinal_before snap2 d2 t s)); [reflexivity|].
  intros t _. unfold ordinal_before. rewrite !Hd, same_assets. reflexivity.
Qed.

Hypothesis same_universe :
  forall s, In s (assets snap1) -> Q500US snap1 s = Q500US snap2 s.
Hypothesis same_data :
  forall s, In s (assets snap1) -> Q500US snap1 s = true ->
            USEquityPricing_close snap1 s = USEquityPricing_close snap2 s
            /\ ms_cash_return snap1 s = ms_cash_return snap2 s
            /\ ms_fcf_yield snap1 s = ms_fcf_yield snap2 s
            /\ ms_roic snap1 s = ms_roic snap2 s
            /\ ms_revenue_growth snap1 s = ms_revenue_growth snap2 s.

Lemma quality_agree (s : Security) :
  Terms.quality snap1 s = Terms.quality snap2 s.
Proof.
  assert (Hc : forall x, Terms.cash_return snap1 x = Terms.cash_return snap2 x).
  { apply rank_by_agree; [exact same_universe|].
    intros x Hx Hu. apply (same_data x Hx Hu). }
  assert (Hy : forall x, Terms.fcf_yield snap1 x = Terms.fcf_yield snap2 x).
  { apply rank_by_agree; [exact same_universe|].
    intros x Hx Hu. apply (same_data x Hx Hu). }
  assert (Hr : forall x, Terms.roic snap1 x = Terms.roic snap2 x).
  { apply rank_by_agree; [exact same_universe|].
    intros x Hx Hu. apply (same_data x Hx Hu). }
  assert (Hg : forall x, Terms.rev_growth snap1 x = Terms.rev_growth snap2 x).
  { apply rank_by_agree; [exact same_universe|].
    intros x Hx Hu. apply (same_data x Hx Hu). }
  assert (Hv : forall x, Terms.value snap1 x = Terms.value snap2 x).
  { apply rank_by_agree; [exact same_universe|].
    intros x _ _. unfold factor_add. rewrite Hc, Hy. reflexivity. }
  unfold Terms.quality, factor_add. rewrite Hv, Hr, Hg. reflexivity.
Qed.

Lemma top_quality_agree (K : Z) (s : Security) :
  Terms.top_quality snap1 K s = Terms.top_quality snap2 K s.
Proof.
  rewrite !top_quality_unfold.
  assert (Htop : top snap1 K (Terms.quality snap1) (Q500US snap1) s
                 = top snap2 K (Terms.quality snap2) (Q500US snap2) s).
  { unfold top. rewrite (rank_by_agree false (Terms.quality snap1)
                           (Terms.quality snap2) (Q500US snap1) (Q500US snap2)
                           same_universe
                           (fun x _ _ => quality_agree x)).
    reflexivity. }
  rewrite <- Htop.
  destruct (top snap1 K (Terms.quality snap1) (Q500US snap1) s) eqn:E;
    [|reflexivity].
  apply top_true in E. destruct E as (Hin & Hu & _).
  destruct (same_data s Hin Hu) as (_ & E1 & E2 & E3 & E4).
  unfold Spec.complete, notnull. rewrite E1, E2, E3, E4. reflexivity.
Qed.

Lemma top_quality_momentum_agree (K T W : Z) (s : Security) :
  Terms.top_quality_momentum snap1 K T W s
  = Terms.top_quality_momentum snap2 K T W s.
Proof.
  unfold Terms.top_quality_momentum, top.
  rewrite (rank_by_agree false (Terms.momentum snap1 W) (Terms.momentum snap2 W)
             (Terms.top_quality snap1 K) (Terms.top_quality snap2 K)).
  - reflexivity.
  - intros x _. apply top_quality_agree.
  - intros x Hx Hq. rewrite top_quality_unfold in Hq.
    apply andb_true_iff in Hq. destruct Hq as [Hq _].
    apply top_true in Hq. destruct Hq as (_ & Hu & _).
    destruct (same_data x Hx Hu) as (Hclose & _).
    unfold Terms.momentum, Returns. rewrite Hclose. reflexivity.
Qed.
End Agreement.

(** X16. A cycle reads the closes and the fundamentals of the universe
    members, and the closes of the benchmark, and nothing else: on two
    snapshots with the same columns and universe that agree on these, both
    variants complete a cycle with the same context and the same order,
    whatever the two snapshots hold for the other assets. *)
Theorem cycle_reads_universe_data_only (tcontext : Trend.Context)
    (ncontext : NoTrend.Context) (snap1 snap2 : Snapshot) :
  same_universe_data snap1 snap2 ->
  USEquityPricing_close snap1 (Trend.SPY tcontext)
  = USEquityPricing_close snap2 (Trend.SPY tcontext) ->
  Trend.rebalance tcontext snap1 = Trend.rebalance tcontext snap2
  /\ NoTrend.rebalance ncontext snap1 = NoTrend.rebalance ncontext snap2.
Proof.
  intros (Ha & Hu & Hd) Hspy.
  assert (Hsig : forall s, Trend.trend_up tcontext snap1 s
                           = Trend.trend_up tcontext snap2 s).
  { intros s. rewrite !trend_up_unfold. unfold SMA. rewrite Hspy. reflexivity. }
  split.
  - unfold Trend.rebalance. f_equal.
    assert (Hdf : Trend.pipeline_output tcontext snap1
                  = Trend.pipeline_output tcontext snap2).
    { unfold Trend.pipeline_output. cbn [Trend.make_pipeline Trend.screen
        Trend.column_trend_up Trend.column_top_quality_momentum].
      rewrite <- Ha.
      rewrite (filter_ext _ (Trend.top_quality_momentum tcontext snap2))
        by (intros s; apply (top_quality_momentum_agree snap1 snap2 Ha Hu Hd)).
      apply map_ext. intros s. rewrite Hsig.
      unfold Trend.top_quality_momentum.
      rewrite (top_quality_momentum_agree snap1 snap2 Ha Hu Hd). reflexivity. }
    rewrite Hdf. reflexivity.
  - unfold NoTrend.rebalance. f_equal.
    assert (Hdf : NoTrend.pipeline_output ncontext snap1
                  = NoTrend.pipeline_output ncontext snap2).
    { unfold NoTrend.pipeline_output. cbn [NoTrend.make_pipeline NoTrend.screen
        NoTrend.column_top_quality_momentum].
      rewrite <- Ha.
      rewrite (filter_ext _ (NoTrend.top_quality_momentum ncontext snap2))
        by (intros s; apply (top_quality_momentum_agree snap1 snap2 Ha Hu Hd)).
      apply map_ext. intros s. unfold NoTrend.top_quality_momentum.
      rewrite (top_quality_momentum_agree snap1 snap2 Ha Hu Hd). reflexivity. }
    rewrite Hdf. reflexivity.
Qed.

Lemma cycle_reads_universe_data_only_witness :
  same_universe_data Sample.falling_market falling_market_with_bond_data
  /\ ms_cash_return Sample.falling_market "IEF"%string
     <> ms_cash_return falling_market_with_bond_data "IEF"%string
  /\ Trend.rebalance Sample.trend_context Sample.falling_market
     = Trend.rebalance Sample.trend_context falling_market_with_bond_data
  /\ NoTrend.rebalance NoTrend.initialize Sample.falling_market
     = NoTrend.rebalance NoTrend.initialize falling_market_with_bond_data.
Proof.
  assert (H : same_universe_data Sample.falling_market
                falling_market_with_bond_data).
  { split; [reflexivity|]. split; [intros s _; reflexivity|].
    intros s Hin Hu. simpl in Hin.
    repeat (destruct Hin as [<- | Hin];
            [first [discriminate Hu | repeat split; reflexivity]|]).
    destruct Hin. }
  split; [exact H|]. split; [discriminate|].
  apply (cycle_reads_universe_data_only Sample.trend_context NoTrend.initialize
           Sample.falling_market falling_market_with_bond_data H).
  reflexivity.
Defined.
